(** * The Prometheus remote writer for recording rules

    A shallow embedding of [pkg/services/ngalert/writer/prom.go]: the point
    extractor [PointsFromFrames], the settings validation and construction
    of the writer ([validateSettings], [createAuthOpts],
    [NewPrometheusWriter]) and the write path ([Write],
    [promremoteLabelsFromPoint], [checkWriteError]).

    Go maps are reference values: a [Labels] value is either nil or a
    location of a heap of maps, so that copying, aliasing and in-place
    updates are visible.  Calls that reach outside the process (building a
    transport, logging, the remote-write request) are recorded in a trace. *)

From Stdlib Require Import PrimFloat.
From stdpp Require Import gmap strings list fin_maps.

Open Scope string_scope.
Open Scope list_scope.

(** ** Go strings: [strings.Contains] *)

Module Strings.

(** [HasPrefix s prefix]: [s] starts with [prefix], byte by byte. *)
Fixpoint HasPrefix (s prefix : string) {struct prefix} : bool :=
  match prefix, s with
  | EmptyString, _ => true
  | String _ _, EmptyString => false
  | String b prefix', String a s' =>
      if decide (a = b) then HasPrefix s' prefix' else false
  end.

(** [Contains s substr]: [substr] occurs somewhere within [s]. *)
Fixpoint Contains (s substr : string) : bool :=
  HasPrefix s substr ||
  match s with
  | EmptyString => false
  | String _ s' => Contains s' substr
  end.

(** The declarative reading of "contains". *)
Definition occurs_in (substr s : string) : Prop :=
  ∃ before after, s = before +:+ substr +:+ after.

End Strings.

(** ** Errors *)

(** The error values this file builds or passes on.  [errorString] is
    [fmt.Errorf] without a wrapping verb, [wrapError] is
    [fmt.Errorf("<prefix>%w", inner)], [writeError] is a
    [promremote.WriteError] seen through the [error] interface. *)
Inductive error : Type :=
| errorString (msg : string)
| wrapError (prefix : string) (inner : error)
| writeError (code : Z) (msg : string).

Fixpoint Error (e : error) : string :=
  match e with
  | errorString msg => msg
  | wrapError prefix inner => prefix +:+ Error inner
  | writeError _ msg => msg
  end.

(** [errors.Unwrap]. *)
Definition Unwrap (e : error) : option error :=
  match e with
  | wrapError _ inner => Some inner
  | _ => None
  end.

(** A Go result pair [(value, err)] of which exactly one side is set. *)
Inductive result (A : Type) : Type :=
| Ok (a : A)
| Err (e : error).
Arguments Ok {A} a.
Arguments Err {A} e.

(** ** The duplicate-timestamp signatures *)

Definition MimirDuplicateTimestampError : string :=
  "err-mimir-sample-duplicate-timestamp".

Definition PrometheusDuplicateTimestampError : string :=
  "duplicate sample for timestamp".

Definition DuplicateTimestampErrors : list string :=
  [ MimirDuplicateTimestampError; PrometheusDuplicateTimestampError ].

(** ** [promremote.WriteError] and [checkWriteError] *)

Record WriteError : Type := mkWriteError {
  StatusCode : Z;
  WriteErrorMessage : string
}.

Definition asError (we : WriteError) : error :=
  writeError (StatusCode we) (WriteErrorMessage we).

(** The loop [for _, e := range DuplicateTimestampErrors] with its early
    return: [true] when some signature occurs in [msg]. *)
Fixpoint matchesAny (msg : string) (signatures : list string) : bool :=
  match signatures with
  | [] => false
  | e :: rest => if Strings.Contains msg e then true else matchesAny msg rest
  end.

Definition checkWriteError (writeErr : option WriteError) : option error :=
  match writeErr with
  | None => None
  | Some we =>
      if decide (StatusCode we = 400%Z) then
        if matchesAny (WriteErrorMessage we) DuplicateTimestampErrors
        then None
        else Some (asError we)
      else Some (asError we)
  end.

(** ** Values of the writer and of the packages it talks to *)

(** An instant ([time.Time]), as Unix nanoseconds. *)
Definition Time : Type := Z.

Module data.
(** [data.Labels] is [map[string]string], a reference type: [None] is the
    nil map, [Some l] refers to the map stored at [l]. *)
Definition Labels : Type := option positive.
End data.

(** Metric represents a Prometheus time series metric. *)
Record Metric : Type := mkMetric {
  T : Time;
  V : float
}.

(** Point is a logical representation of a single point in time for a
    Prometheus time series. *)
Record Point : Type := mkPoint {
  Name : string;
  Labels : data.Labels;
  Metric_ : Metric
}.

Module numeric.
(** One series of a [numeric.Collection], seen through the two methods the
    writer calls: [GetLabels] hands out the series's own label map (no
    copy), [NullableFloat64Value] returns [(value pointer, empty, err)]. *)
Record MetricRef : Type := mkMetricRef {
  GetLabels : data.Labels;
  NullableFloat64Value : option float * bool * option error
}.

Record Collection : Type := mkCollection {
  Refs : list MetricRef
}.
End numeric.

Module promremote.
Record Label : Type := mkLabel {
  Name : string;
  Value : string
}.

(** The field [Value] of [promremote.Datapoint] is [DatapointValue] here,
    [Value] being taken by [Label]. *)
Record Datapoint : Type := mkDatapoint {
  Timestamp : Time;
  DatapointValue : float
}.

Record TimeSeries : Type := mkTimeSeries {
  Labels : list Label;
  Datapoint_ : Datapoint
}.
End promremote.

Module httpclient.
Record BasicAuthOptions : Type := mkBasicAuthOptions {
  User : string;
  Password : string
}.

(** [Header] is an [http.Header]: canonical key to the values added. *)
Record Options : Type := mkOptions {
  BasicAuth : option BasicAuthOptions;
  Header : gmap string (list string)
}.
End httpclient.

Module setting.
(** The fields of [setting.RecordingRuleSettings] the writer reads;
    [Timeout] is a [time.Duration], a signed count of nanoseconds. *)
Record RecordingRuleSettings : Type := mkRecordingRuleSettings {
  URL : string;
  BasicAuthUsername : string;
  BasicAuthPassword : string;
  CustomHeaders : gmap string string;
  Timeout : Z
}.
End setting.

(** ** State: the heap of maps and the trace of outside calls *)

Inductive event : Type :=
| GetTransportCalled (opts : httpclient.Options)
| NewClientCalled (writeURL : string) (timeout : Z)
| DebugLogged (msg : string) (args : list string)
| WriteTimeSeriesCalled (series : list promremote.TimeSeries).

Record world : Type := mkWorld {
  heapOf : gmap positive (gmap string string);
  traceOf : list event
}.

(** A computation either finishes with a value or panics. *)
Inductive outcome (A : Type) : Type :=
| Done (a : A)
| Panic (msg : string).
Arguments Done {A} a.
Arguments Panic {A} msg.

Definition M (A : Type) : Type := world → outcome A * world.

#[global] Instance M_ret : MRet M := λ A a w, (Done a, w).

#[global] Instance M_bind : MBind M := λ A B f m w,
  match m w with
  | (Done a, w') => f a w'
  | (Panic msg, w') => (Panic msg, w')
  end.

Definition emit (e : event) : M unit := λ w,
  (Done tt, mkWorld (heapOf w) (traceOf w ++ [e])).

(** *** Go's map operations on the heap *)

(** The entries of the map a [Labels] value denotes; the nil map has none. *)
Definition entries (h : gmap positive (gmap string string)) (l : data.Labels)
  : gmap string string :=
  match l with
  | None => ∅
  | Some p => default ∅ (h !! p)
  end.

(** [make(map[string]string)] and map literals: a new map at an unused
    location. *)
Definition mapalloc (m : gmap string string) : M data.Labels := λ w,
  let p := fresh (dom (heapOf w)) in
  (Done (Some p), mkWorld (<[p := m]> (heapOf w)) (traceOf w)).

(** [delete(l, k)]: a no-op on the nil map. *)
Definition mapdelete (l : data.Labels) (k : string) : M unit := λ w,
  match l with
  | None => (Done tt, w)
  | Some p =>
      (Done tt,
       mkWorld (<[p := delete k (entries (heapOf w) l)]> (heapOf w)) (traceOf w))
  end.

(** [l[k] = v]: panics on the nil map. *)
Definition mapassign (l : data.Labels) (k v : string) : M unit := λ w,
  match l with
  | None => (Panic "assignment to entry in nil map", w)
  | Some p =>
      (Done tt,
       mkWorld (<[p := <[k := v]> (entries (heapOf w) l)]> (heapOf w)) (traceOf w))
  end.

(** The pairs a [for k, v := range l] visits.  Go leaves the order open;
    the embedding takes the order of [map_to_list]. *)
Definition maprange (l : data.Labels) : M (list (string * string)) := λ w,
  (Done (map_to_list (entries (heapOf w) l)), w).

(** ** The writer *)

Section Writer.

(** Types the writer only passes along. *)
Variables (Ctx Logger Frames CollectionReader RoundTripper : Type).

(** Functions of other packages, taken as they are declared:
    [numeric.CollectionReaderFromFrames], the reader's [GetCollection],
    [url.Parse] (only its error is looked at) and the canonical form
    [http.Header.Add] gives a key. *)
Variable CollectionReaderFromFrames : Frames → result CollectionReader.
Variable GetCollection : CollectionReader → bool → result numeric.Collection.
Variable url_Parse : string → option error.
Variable CanonicalHeaderKey : string → string.

(** Whether [data.Labels.Copy] of the nil map is nil again ([true]) or a
    new empty map ([false]).  [PointsFromFrames] guards against the
    former, so both are kept. *)
Variable copyOfNilIsNil : bool.

(** [data.Labels.Copy]: a new map with the same entries. *)
Definition Copy (l : data.Labels) : M data.Labels :=
  match l with
  | None => if copyOfNilIsNil then mret None else mapalloc ∅
  | Some _ => λ w, mapalloc (entries (heapOf w) l) w
  end.

(** *** [PointsFromFrames] *)

(** Use a default value of NaN if the value is empty or nil. *)
Definition resolveValue (ref : numeric.MetricRef) : float :=
  let '(fp, empty, _) := numeric.NullableFloat64Value ref in
  let f := nan in
  match negb empty, fp with
  | true, Some x => x
  | _, _ => f
  end.

(** [for k, v := range extraLabels { labels[k] = v }], over the pairs
    visited. *)
Fixpoint assignAll (labels : data.Labels) (kvs : list (string * string))
  : M unit :=
  match kvs with
  | [] => mret tt
  | (k, v) :: rest => _ ← mapassign labels k v; assignAll labels rest
  end.

(** The body of the loop over [col.Refs], up to the point it appends. *)
Definition pointFromRef (name : string) (t : Time)
    (extraLabels : data.Labels) (ref : numeric.MetricRef) : M Point :=
  let f := resolveValue ref in
  let metric := {| T := t; V := f |} in
  labels ← Copy (numeric.GetLabels ref);
  labels ← (match labels with
            | None => mapalloc ∅
            | Some _ => mret labels
            end);
  _ ← mapdelete labels "__name__";
  kvs ← maprange extraLabels;
  _ ← assignAll labels kvs;
  mret {| Name := name; Labels := labels; Metric_ := metric |}.

Fixpoint rangeRefs (name : string) (t : Time) (extraLabels : data.Labels)
    (refs : list numeric.MetricRef) (points : list Point) : M (list Point) :=
  match refs with
  | [] => mret points
  | ref :: rest =>
      p ← pointFromRef name t extraLabels ref;
      rangeRefs name t extraLabels rest (points ++ [p])
  end.

Definition PointsFromFrames (name : string) (t : Time) (frames : Frames)
    (extraLabels : data.Labels) : M (result (list Point)) :=
  match CollectionReaderFromFrames frames with
  | Err err => mret (Err err)
  | Ok cr =>
      match GetCollection cr false with
      | Err err => mret (Err err)
      | Ok col =>
          points ← rangeRefs name t extraLabels (numeric.Refs col) [];
          mret (Ok points)
      end
  end.

(** *** Settings and construction *)

Record Config : Type := mkConfig {
  UserAgent : string;
  WriteURL : string;
  HTTPClientTimeout : Z;
  HTTPClient : RoundTripper
}.

(** [promremote.Client]; of [WriteTimeSeries]'s two results only the
    [WriteError] is kept, [Write] discards the other. *)
Record Client : Type := mkClient {
  WriteTimeSeries : Ctx → list promremote.TimeSeries → option WriteError
}.

Record httpClientProvider : Type := mkProvider {
  GetTransport : httpclient.Options → result RoundTripper
}.

Record PrometheusWriter : Type := mkPrometheusWriter {
  client : Client;
  logger : Logger
}.

(** [promremote.NewClient]. *)
Variable NewClient : Config → result Client.

Definition validateSettings (settings : setting.RecordingRuleSettings)
  : option error :=
  if bool_decide (setting.BasicAuthUsername settings ≠ "")
     && bool_decide (setting.BasicAuthPassword settings = "")
  then Some (errorString "basic auth password is required if username is set")
  else
    match url_Parse (setting.URL settings) with
    | Some err => Some (wrapError "invalid URL: " err)
    | None =>
        if bool_decide (setting.Timeout settings ≤ 0)%Z
        then Some (errorString "timeout must be greater than 0")
        else None
    end.

Definition createAuthOpts (username password : string)
  : option httpclient.BasicAuthOptions :=
  (* If username is empty, do not use basic auth and ignore password. *)
  if bool_decide (username = "") then None
  else Some {| httpclient.User := username; httpclient.Password := password |}.

(** [headers.Add(k, v)]. *)
Definition HeaderAdd (headers : gmap string (list string)) (k v : string)
  : gmap string (list string) :=
  let key := CanonicalHeaderKey k in
  <[key := default [] (headers !! key) ++ [v]]> headers.

Definition NewPrometheusWriter (settings : setting.RecordingRuleSettings)
    (provider : httpClientProvider) (l : Logger)
  : M (result PrometheusWriter) :=
  match validateSettings settings with
  | Some err => mret (Err err)
  | None =>
      let headers :=
        foldl (λ h kv, HeaderAdd h kv.1 kv.2) ∅
              (map_to_list (setting.CustomHeaders settings)) in
      let opts :=
        {| httpclient.BasicAuth :=
             createAuthOpts (setting.BasicAuthUsername settings)
                            (setting.BasicAuthPassword settings);
           httpclient.Header := headers |} in
      _ ← emit (GetTransportCalled opts);
      match GetTransport provider opts with
      | Err err => mret (Err err)
      | Ok rt =>
          let clientCfg :=
            {| UserAgent := "grafana-recording-rule";
               WriteURL := setting.URL settings;
               HTTPClientTimeout := setting.Timeout settings;
               HTTPClient := rt |} in
          _ ← emit (NewClientCalled (WriteURL clientCfg)
                                    (HTTPClientTimeout clientCfg));
          match NewClient clientCfg with
          | Err err => mret (Err err)
          | Ok c => mret (Ok {| client := c; logger := l |})
          end
      end
  end.

(** *** [Write] *)

Definition promremoteLabelsFromPoint (point : Point)
  : M (list promremote.Label) :=
  let labels :=
    [ {| promremote.Name := "__name__"; promremote.Value := Name point |} ] in
  kvs ← maprange (Labels point);
  mret (foldl (λ labels kv,
                 labels ++ [ {| promremote.Name := kv.1;
                                promremote.Value := kv.2 |} ])
              labels kvs).

Fixpoint rangePoints (points : list Point)
    (series : list promremote.TimeSeries) : M (list promremote.TimeSeries) :=
  match points with
  | [] => mret series
  | p :: rest =>
      labels ← promremoteLabelsFromPoint p;
      rangePoints rest
        (series ++
           [ {| promremote.Labels := labels;
                promremote.Datapoint_ :=
                  {| promremote.Timestamp := T (Metric_ p);
                     promremote.DatapointValue := V (Metric_ p) |} |} ])
  end.

(** Write writes the given frames to the Prometheus remote write
    endpoint.  The first statement, [l := w.logger.FromContext(ctx)], is
    left out: the logger is only passed along here, and the writer is taken
    to hold a usable one. *)
Definition Write (w : PrometheusWriter) (ctx : Ctx) (name : string)
    (t : Time) (frames : Frames) (extraLabels : data.Labels)
  : M (option error) :=
  r ← PointsFromFrames name t frames extraLabels;
  match r with
  | Err err => mret (Some err)
  | Ok points =>
      series ← rangePoints points [];
      _ ← emit (DebugLogged "Writing metric" ["name"; name]);
      _ ← emit (WriteTimeSeriesCalled series);
      let writeErr := WriteTimeSeries (client w) ctx series in
      match checkWriteError writeErr with
      | Some err => mret (Some (wrapError "failed to write time series: " err))
      | None => mret None
      end
  end.


(** ** Notions the properties are stated with *)

(** A [Labels] value is allocated in [h] when it is nil or refers to a map
    of [h]: what every map value of a running program satisfies. *)
Definition allocated (h : gmap positive (gmap string string))
    (l : data.Labels) : Prop :=
  match l with
  | None => True
  | Some q => is_Some (h !! q)
  end.

(** [overlay extra base]: [base] after [base[k] = v] for each entry of
    [extra], in the order of [maprange]. *)
Definition overlay (extra base : gmap string string) : gmap string string :=
  foldl (λ m kv, <[kv.1 := kv.2]> m) base (map_to_list extra).

(** The labels of the point made from [ref] when the heap is [h]: the
    series's entries without [__name__], then [extraLabels] written over
    them ([extraLabels] is read after the copy has been made). *)
Definition pointLabels (h : gmap positive (gmap string string))
    (extraLabels : data.Labels) (ref : numeric.MetricRef)
  : gmap string string :=
  let base := delete "__name__" (entries h (numeric.GetLabels ref)) in
  overlay (entries (<[fresh (dom h) := base]> h) extraLabels) base.

(** The points of a run over [refs] and the heap it leaves. *)
Fixpoint allocPoints (name : string) (t : Time) (extraLabels : data.Labels)
    (refs : list numeric.MetricRef) (h : gmap positive (gmap string string))
  : list Point * gmap positive (gmap string string) :=
  match refs with
  | [] => ([], h)
  | ref :: rest =>
      let p := fresh (dom h) in
      let r := allocPoints name t extraLabels rest
                 (<[p := pointLabels h extraLabels ref]> h) in
      ({| Name := name; Labels := Some p;
          Metric_ := {| T := t; V := resolveValue ref |} |} :: r.1, r.2)
  end.

(** [madeFrom name t extraLabels h h' ref pt]: [pt] is the point of series
    [ref] of a run from heap [h] to heap [h']: it has the name, the
    timestamp and the resolved value, and its labels are a map that [h] does
    not have; when [extraLabels] is allocated in [h] that map holds
    [extraLabels] over the series's entries without [__name__]. *)
Definition madeFrom (name : string) (t : Time) (extraLabels : data.Labels)
    (h h' : gmap positive (gmap string string))
    (ref : numeric.MetricRef) (pt : Point) : Prop :=
  Name pt = name ∧
  Metric_ pt = {| T := t; V := resolveValue ref |} ∧
  ∃ (l : positive) (m : gmap string string),
    Labels pt = Some l ∧ h !! l = None ∧ h' !! l = Some m ∧
    (allocated h extraLabels →
     ∃ base : gmap string string,
       m = entries h extraLabels ∪ delete "__name__" base ∧
       (allocated h (numeric.GetLabels ref) →
        base = entries h (numeric.GetLabels ref))).

Definition toLabel (kv : string * string) : promremote.Label :=
  {| promremote.Name := kv.1; promremote.Value := kv.2 |}.

(** The label list [promremoteLabelsFromPoint] builds for [pt] in heap [h]. *)
Definition wireLabels (h : gmap positive (gmap string string)) (pt : Point)
  : list promremote.Label :=
  {| promremote.Name := "__name__"; promremote.Value := Name pt |}
    :: (toLabel <$> map_to_list (entries h (Labels pt))).

(** The time series [Write] builds for [pt] in heap [h]. *)
Definition wireSeries (h : gmap positive (gmap string string)) (pt : Point)
  : promremote.TimeSeries :=
  {| promremote.Labels := wireLabels h pt;
     promremote.Datapoint_ :=
       {| promremote.Timestamp := T (Metric_ pt);
          promremote.DatapointValue := V (Metric_ pt) |} |}.

(** How many labels of a list are named [__name__]. *)
Definition countName (labels : list promremote.Label) : nat :=
  length (filter (λ l, promremote.Name l = "__name__") labels).

(** The errors [validateSettings] can return. *)
Definition isConfigError (e : error) : Prop :=
  e = errorString "basic auth password is required if username is set" ∨
  (∃ inner, e = wrapError "invalid URL: " inner) ∨
  e = errorString "timeout must be greater than 0".

(** The options [NewPrometheusWriter] asks a transport for. *)
Definition transportOptions (settings : setting.RecordingRuleSettings)
  : httpclient.Options :=
  {| httpclient.BasicAuth :=
       createAuthOpts (setting.BasicAuthUsername settings)
                      (setting.BasicAuthPassword settings);
     httpclient.Header :=
       foldl (λ h kv, HeaderAdd h kv.1 kv.2) ∅
             (map_to_list (setting.CustomHeaders settings)) |}.

(** The configuration [NewPrometheusWriter] builds the client from. *)
Definition clientConfig (settings : setting.RecordingRuleSettings)
    (rt : RoundTripper) : Config :=
  {| UserAgent := "grafana-recording-rule";
     WriteURL := setting.URL settings;
     HTTPClientTimeout := setting.Timeout settings;
     HTTPClient := rt |}.

(** A series as it is when the error of its value read is dropped. *)
Definition withoutValueError (ref : numeric.MetricRef) : numeric.MetricRef :=
  {| numeric.GetLabels := numeric.GetLabels ref;
     numeric.NullableFloat64Value :=
       ((numeric.NullableFloat64Value ref).1, None) |}.

(** A wire label as the pair it was made from. *)
Definition labelPair (l : promremote.Label) : string * string :=
  (promremote.Name l, promremote.Value l).

(** * Properties *)

(** ** [strings.Contains] finds exactly the occurrences *)

Lemma HasPrefix_spec (prefix s : string) :
  Strings.HasPrefix s prefix = true ↔ ∃ rest, s = prefix +:+ rest.
Proof.
  revert s. induction prefix as [|b prefix IH]; intros s; simpl.
  - split; [intros _; by exists s | done].
  - destruct s as [|a s]; simpl.
    + split; [done | intros [rest Hrest]; discriminate Hrest].
    + destruct (decide (a = b)) as [->|Hne].
      * rewrite IH. split; intros [rest Hrest]; exists rest.
        -- by rewrite Hrest.
        -- by injection Hrest.
      * split; [done | intros [rest Hrest]; injection Hrest; congruence].
Qed.

Lemma Contains_spec (substr s : string) :
  Strings.Contains s substr = true ↔ Strings.occurs_in substr s.
Proof.
  unfold Strings.occurs_in. induction s as [|a s IH].
  - simpl. rewrite orb_false_r, HasPrefix_spec. split.
    + intros [rest Hrest]. by exists "", rest.
    + intros (before & after & Heq). destruct before; [|discriminate Heq].
      by exists after.
  - cbn [Strings.Contains]. rewrite orb_true_iff, HasPrefix_spec, IH. split.
    + intros [[rest Hrest] | (before & after & Heq)].
      * by exists "", rest.
      * exists (String a before), after. by rewrite Heq.
    + intros (before & after & Heq). destruct before as [|c before].
      * left. by exists after.
      * right. exists before, after. by injection Heq.
Qed.

Lemma matchesAny_spec (msg : string) (signatures : list string) :
  matchesAny msg signatures = true ↔
  ∃ e, e ∈ signatures ∧ Strings.occurs_in e msg.
Proof.
  induction signatures as [|e rest IH]; simpl.
  - split; [done | intros (e & He & _); by apply elem_of_nil in He].
  - destruct (Strings.Contains msg e) eqn:Hc.
    + split; [intros _ | done]. exists e. split; [left | by apply Contains_spec].
    + rewrite IH. split.
      * intros (e' & He' & Hocc). exists e'. split; [by right | done].
      * intros (e' & He' & Hocc). apply elem_of_cons in He' as [-> | He'].
        -- apply Contains_spec in Hocc. congruence.
        -- by exists e'.
Qed.

(** The signature list is the two fixed strings. *)
Lemma matchesAny_signatures (msg : string) :
  matchesAny msg DuplicateTimestampErrors = true ↔
  Strings.occurs_in "err-mimir-sample-duplicate-timestamp" msg ∨
  Strings.occurs_in "duplicate sample for timestamp" msg.
Proof.
  rewrite matchesAny_spec. unfold DuplicateTimestampErrors. split.
  - intros (e & He & Hocc).
    apply elem_of_cons in He as [-> | He]; [by left|].
    apply list_elem_of_singleton in He as ->. by right.
  - intros [Hocc | Hocc]; eexists; (split; [|exact Hocc]).
    + apply elem_of_cons. by left.
    + apply elem_of_cons. right. by apply list_elem_of_singleton.
Qed.

(** ** The heap under the map operations *)

Lemma foldl_insert_union (kvs : list (string * string)) :
  ∀ m : gmap string string,
    NoDup kvs.*1 →
    foldl (λ m kv, <[kv.1 := kv.2]> m) m kvs = list_to_map kvs ∪ m.
Proof.
  induction kvs as [|[k v] kvs IH]; intros m Hnd; simpl.
  - by rewrite (left_id_L ∅ (∪)).
  - apply NoDup_cons in Hnd as [Hk Hnd]. rewrite IH by done.
    rewrite <- insert_union_l. symmetry. apply insert_union_r.
    by apply not_elem_of_list_to_map_1.
Qed.

(** The order in which the entries are visited does not matter. *)
Lemma foldl_insert_any_order (kvs : list (string * string))
    (extra base : gmap string string) :
  kvs ≡ₚ map_to_list extra →
  foldl (λ m kv, <[kv.1 := kv.2]> m) base kvs = extra ∪ base.
Proof.
  intros Hperm. rewrite foldl_insert_union.
  - f_equal. rewrite <- (list_to_map_to_list extra).
    apply list_to_map_proper; [|done].
    rewrite Hperm. apply NoDup_fst_map_to_list.
  - rewrite Hperm. apply NoDup_fst_map_to_list.
Qed.

Lemma overlay_union (extra base : gmap string string) :
  overlay extra base = extra ∪ base.
Proof. by apply foldl_insert_any_order. Qed.

Lemma entries_allocated_subseteq (h h' : gmap positive (gmap string string))
    (l : data.Labels) :
  allocated h l → h ⊆ h' → entries h' l = entries h l.
Proof.
  destruct l as [q|]; [|done]. intros [m Hm] Hsub. simpl.
  by rewrite (lookup_weaken _ _ _ _ Hm Hsub), Hm.
Qed.

Lemma allocated_subseteq (h h' : gmap positive (gmap string string))
    (l : data.Labels) :
  allocated h l → h ⊆ h' → allocated h' l.
Proof.
  destruct l as [q|]; [|done]. intros [m Hm] Hsub.
  exists m. by eapply lookup_weaken.
Qed.

Lemma fresh_unallocated (h : gmap positive (gmap string string)) :
  h !! fresh (dom h) = None.
Proof. apply not_elem_of_dom, is_fresh. Qed.

(** ** [PointsFromFrames] in closed form *)

Lemma assignAll_spec (p : positive) (kvs : list (string * string)) :
  ∀ (w : world) (m : gmap string string),
    heapOf w !! p = Some m →
    assignAll (Some p) kvs w =
      (Done tt,
       mkWorld (<[p := foldl (λ m kv, <[kv.1 := kv.2]> m) m kvs]> (heapOf w))
               (traceOf w)).
Proof.
  induction kvs as [|[k v] kvs IH]; intros w m Hm; simpl.
  - unfold mret, M_ret. rewrite insert_id by done. by destruct w.
  - unfold mbind, M_bind, mapassign. simpl. rewrite Hm. simpl.
    erewrite IH by (simpl; apply lookup_insert_eq).
    simpl. by rewrite insert_insert_eq.
Qed.

Lemma pointFromRef_spec (name : string) (t : Time) (extraLabels : data.Labels)
    (ref : numeric.MetricRef) (w : world) :
  pointFromRef name t extraLabels ref w =
    (Done {| Name := name; Labels := Some (fresh (dom (heapOf w)));
             Metric_ := {| T := t; V := resolveValue ref |} |},
     mkWorld (<[fresh (dom (heapOf w)) :=
                  pointLabels (heapOf w) extraLabels ref]> (heapOf w))
             (traceOf w)).
Proof.
  unfold pointFromRef, pointLabels, overlay, Copy.
  destruct (numeric.GetLabels ref) as [q|]; [|destruct copyOfNilIsNil];
    unfold mbind, M_bind, mret, M_ret, mapalloc, mapdelete, maprange;
    simpl; rewrite ?lookup_insert_eq; simpl; rewrite ?insert_insert_eq;
    (erewrite assignAll_spec by (simpl; apply lookup_insert_eq));
    simpl; by rewrite ?insert_insert_eq.
Qed.

Lemma rangeRefs_spec (name : string) (t : Time) (extraLabels : data.Labels)
    (refs : list numeric.MetricRef) :
  ∀ (points : list Point) (w : world),
    rangeRefs name t extraLabels refs points w =
      (Done (points ++ (allocPoints name t extraLabels refs (heapOf w)).1),
       mkWorld (allocPoints name t extraLabels refs (heapOf w)).2 (traceOf w)).
Proof.
  induction refs as [|ref rest IH]; intros points w; simpl.
  - unfold mret, M_ret. rewrite app_nil_r. by destruct w.
  - unfold mbind, M_bind. rewrite pointFromRef_spec, IH. simpl.
    by rewrite <- app_assoc.
Qed.

Lemma allocPoints_length (name : string) (t : Time) (extraLabels : data.Labels)
    (refs : list numeric.MetricRef) :
  ∀ h, length (allocPoints name t extraLabels refs h).1 = length refs.
Proof. induction refs as [|ref rest IH]; intros h; simpl; [done | by rewrite IH]. Qed.

Lemma allocPoints_subseteq (name : string) (t : Time) (extraLabels : data.Labels)
    (refs : list numeric.MetricRef) :
  ∀ h, h ⊆ (allocPoints name t extraLabels refs h).2.
Proof.
  induction refs as [|ref rest IH]; intros h; simpl; [done|].
  etrans; [|apply IH]. apply insert_subseteq, fresh_unallocated.
Qed.

Lemma pointLabels_allocated (h : gmap positive (gmap string string))
    (extraLabels : data.Labels) (ref : numeric.MetricRef) :
  allocated h extraLabels →
  pointLabels h extraLabels ref =
    entries h extraLabels ∪ delete "__name__" (entries h (numeric.GetLabels ref)).
Proof.
  intros Hextra. unfold pointLabels. rewrite overlay_union. f_equal.
  apply entries_allocated_subseteq; [done|].
  apply insert_subseteq, fresh_unallocated.
Qed.

Lemma madeFrom_weaken (name : string) (t : Time) (extraLabels : data.Labels)
    (h h1 h' : gmap positive (gmap string string))
    (ref : numeric.MetricRef) (pt : Point) :
  h ⊆ h1 → madeFrom name t extraLabels h1 h' ref pt →
  madeFrom name t extraLabels h h' ref pt.
Proof.
  intros Hsub (Hname & Hmetric & l & m & Hl & Hfresh & Hm & Hcontent).
  split; [done|]. split; [done|]. exists l, m. split; [done|].
  split.
  { destruct (h !! l) as [x|] eqn:Hx; [|done].
    by rewrite (lookup_weaken _ _ _ _ Hx Hsub) in Hfresh. }
  split; [done|]. intros Hextra.
  destruct Hcontent as (base & -> & Hbase); [by eapply allocated_subseteq|].
  exists base. rewrite (entries_allocated_subseteq h h1) by done.
  split; [done|]. intros Href.
  rewrite Hbase by (by eapply allocated_subseteq).
  by apply entries_allocated_subseteq.
Qed.

Lemma allocPoints_madeFrom (name : string) (t : Time) (extraLabels : data.Labels)
    (refs : list numeric.MetricRef) :
  ∀ h,
    Forall2 (madeFrom name t extraLabels h
               (allocPoints name t extraLabels refs h).2)
            refs (allocPoints name t extraLabels refs h).1.
Proof.
  induction refs as [|ref rest IH]; intros h; simpl; [constructor|].
  constructor.
  - split; [done|]. split; [done|].
    eexists _, (pointLabels h extraLabels ref).
    split; [done|]. split; [apply fresh_unallocated|]. split.
    + eapply lookup_weaken; [|apply allocPoints_subseteq].
      apply lookup_insert_eq.
    + intros Hextra. exists (entries h (numeric.GetLabels ref)).
      split; [by apply pointLabels_allocated | done].
  - eapply Forall2_impl; [apply IH|]. intros ref' pt.
    apply madeFrom_weaken, insert_subseteq, fresh_unallocated.
Qed.


Lemma PointsFromFrames_collection (name : string) (t : Time) (frames : Frames)
    (extraLabels : data.Labels) (cr : CollectionReader)
    (col : numeric.Collection) (w : world) :
  CollectionReaderFromFrames frames = Ok cr →
  GetCollection cr false = Ok col →
  PointsFromFrames name t frames extraLabels w =
    (Done (Ok (allocPoints name t extraLabels (numeric.Refs col) (heapOf w)).1),
     mkWorld (allocPoints name t extraLabels (numeric.Refs col) (heapOf w)).2
             (traceOf w)).
Proof.
  intros Hcr Hcol. unfold PointsFromFrames. rewrite Hcr, Hcol.
  unfold mbind, M_bind. by rewrite rangeRefs_spec.
Qed.

(** Extraction fails only where one of the two readers fails, and then
    leaves the world as it was. *)
Lemma PointsFromFrames_failure (name : string) (t : Time) (frames : Frames)
    (extraLabels : data.Labels) (w w' : world) (o : outcome (result (list Point))) :
  PointsFromFrames name t frames extraLabels w = (o, w') →
  (∀ points, o ≠ Done (Ok points)) →
  w' = w ∧ ∃ err, o = Done (Err err) ∧
    (CollectionReaderFromFrames frames = Err err ∨
     ∃ cr, CollectionReaderFromFrames frames = Ok cr ∧
           GetCollection cr false = Err err).
Proof.
  unfold PointsFromFrames.
  destruct (CollectionReaderFromFrames frames) as [cr|err] eqn:Hcr.
  - destruct (GetCollection cr false) as [col|err] eqn:Hcol.
    + unfold mbind, M_bind. rewrite rangeRefs_spec. simpl.
      intros [= <- <-] Hne. by destruct (Hne _ eq_refl).
    + intros [= <- <-] _. split; [done|]. exists err. split; [done|].
      right. by exists cr.
  - intros [= <- <-] _. split; [done|]. exists err. split; [done|]. by left.
Qed.

(** The labels of a point made in a run, when [extraLabels] is allocated. *)
Lemma madeFrom_labels (name : string) (t : Time) (extraLabels : data.Labels)
    (h h' : gmap positive (gmap string string))
    (ref : numeric.MetricRef) (pt : Point) :
  allocated h extraLabels →
  madeFrom name t extraLabels h h' ref pt →
  entries h extraLabels ⊆ entries h' (Labels pt) ∧
  entries h' (Labels pt) !! "__name__" = entries h extraLabels !! "__name__".
Proof.
  intros Hextra (_ & _ & l & m & -> & _ & Hm & Hcontent).
  destruct (Hcontent Hextra) as (base & -> & _).
  simpl. rewrite Hm. simpl. split; [apply map_union_subseteq_l|].
  apply lookup_union_l, lookup_delete_eq.
Qed.

(** ** The point extractor *)

(** C3: when the two readers succeed and give a collection of N series,
    [PointsFromFrames] returns N points, the i-th made from the i-th series
    (the order of [col.Refs] is kept), and every point has the name and the
    timestamp passed in. *)
Theorem PointsFromFrames_one_point_per_series (name : string) (t : Time)
    (frames : Frames) (extraLabels : data.Labels) (cr : CollectionReader)
    (col : numeric.Collection) (w : world) :
  CollectionReaderFromFrames frames = Ok cr →
  GetCollection cr false = Ok col →
  ∃ (points : list Point) (w' : world),
    PointsFromFrames name t frames extraLabels w = (Done (Ok points), w') ∧
    length points = length (numeric.Refs col) ∧
    Forall2 (madeFrom name t extraLabels (heapOf w) (heapOf w'))
            (numeric.Refs col) points ∧
    (∀ i ref, numeric.Refs col !! i = Some ref →
       ∃ pt, points !! i = Some pt ∧ V (Metric_ pt) = resolveValue ref) ∧
    (∀ pt, pt ∈ points → Name pt = name ∧ T (Metric_ pt) = t).
Proof.
  intros Hcr Hcol. eexists _, _.
  split; [by eapply PointsFromFrames_collection|]. simpl.
  pose proof (allocPoints_madeFrom name t extraLabels (numeric.Refs col)
                (heapOf w)) as Hall.
  split; [apply allocPoints_length|]. split; [done|]. split.
  - intros i ref Hi.
    destruct (Forall2_lookup_l _ _ _ _ _ Hall Hi) as (pt & Hpt & _ & Hm & _).
    exists pt. split; [done|]. by rewrite Hm.
  - intros pt Hin. apply list_elem_of_lookup in Hin as [i Hi].
    destruct (Forall2_lookup_r _ _ _ _ _ Hall Hi) as (ref & _ & Hn & Hm & _).
    by rewrite Hm.
Qed.

(** C4: the value of the point of a series is NaN when the series's value
    is absent ([empty]) or null (a nil pointer), and is the series's value
    itself when that is present and not null. *)
Theorem PointsFromFrames_value (name : string) (t : Time)
    (frames : Frames) (extraLabels : data.Labels) (cr : CollectionReader)
    (col : numeric.Collection) (w : world) :
  CollectionReaderFromFrames frames = Ok cr →
  GetCollection cr false = Ok col →
  ∃ (points : list Point) (w' : world),
    PointsFromFrames name t frames extraLabels w = (Done (Ok points), w') ∧
    Forall2
      (λ ref pt,
         (((numeric.NullableFloat64Value ref).1.2 = true ∨
           (numeric.NullableFloat64Value ref).1.1 = None) →
          V (Metric_ pt) = nan ∧ is_nan (V (Metric_ pt)) = true) ∧
         (∀ x, (numeric.NullableFloat64Value ref).1.2 = false →
               (numeric.NullableFloat64Value ref).1.1 = Some x →
               V (Metric_ pt) = x))
      (numeric.Refs col) points.
Proof.
  intros Hcr Hcol. eexists _, _.
  split; [by eapply PointsFromFrames_collection|].
  eapply Forall2_impl; [apply allocPoints_madeFrom|].
  intros ref pt (_ & -> & _). simpl. unfold resolveValue.
  destruct (numeric.NullableFloat64Value ref) as [[fp empty] err]. simpl.
  split.
  - intros [-> | ->]; [done|]. by destruct empty.
  - by intros x -> ->.
Qed.

(** C2, as the code has it: every point's labels include every entry of
    [extraLabels] (whatever the series had under the same key), and hold
    [__name__] exactly when [extraLabels] does, with its value; so they
    exclude [__name__] whenever [extraLabels] has no such key. *)
Theorem PointsFromFrames_labels (name : string) (t : Time)
    (frames : Frames) (extraLabels : data.Labels) (cr : CollectionReader)
    (col : numeric.Collection) (w : world) :
  CollectionReaderFromFrames frames = Ok cr →
  GetCollection cr false = Ok col →
  allocated (heapOf w) extraLabels →
  ∃ (points : list Point) (w' : world),
    PointsFromFrames name t frames extraLabels w = (Done (Ok points), w') ∧
    ∀ pt, pt ∈ points →
      entries (heapOf w) extraLabels ⊆ entries (heapOf w') (Labels pt) ∧
      entries (heapOf w') (Labels pt) !! "__name__" =
        entries (heapOf w) extraLabels !! "__name__" ∧
      (entries (heapOf w) extraLabels !! "__name__" = None →
       entries (heapOf w') (Labels pt) !! "__name__" = None).
Proof.
  intros Hcr Hcol Hextra. eexists _, _.
  split; [by eapply PointsFromFrames_collection|]. simpl.
  intros pt Hin. apply list_elem_of_lookup in Hin as [i Hi].
  destruct (Forall2_lookup_r _ _ _ _ _
              (allocPoints_madeFrom name t extraLabels (numeric.Refs col)
                 (heapOf w)) Hi)
    as (ref & _ & Hmade).
  destruct (madeFrom_labels _ _ _ _ _ _ _ Hextra Hmade) as [Hsub Hname].
  split; [done|]. split; [done|]. intros Hnone. by rewrite Hname.
Qed.


(** C10: a series whose label set is nil does not make extraction fail or
    panic; its point gets a map of its own, one that did not exist before,
    holding the entries of [extraLabels] and nothing else. *)
Theorem PointsFromFrames_nil_labels (name : string) (t : Time)
    (frames : Frames) (extraLabels : data.Labels) (cr : CollectionReader)
    (col : numeric.Collection) (w : world) :
  CollectionReaderFromFrames frames = Ok cr →
  GetCollection cr false = Ok col →
  allocated (heapOf w) extraLabels →
  ∃ (points : list Point) (w' : world),
    PointsFromFrames name t frames extraLabels w = (Done (Ok points), w') ∧
    ∀ i ref, numeric.Refs col !! i = Some ref →
      numeric.GetLabels ref = None →
      ∃ pt l, points !! i = Some pt ∧ Labels pt = Some l ∧
              heapOf w !! l = None ∧
              heapOf w' !! l = Some (entries (heapOf w) extraLabels).
Proof.
  intros Hcr Hcol Hextra. eexists _, _.
  split; [by eapply PointsFromFrames_collection|]. simpl.
  intros i ref Hi Hnil.
  destruct (Forall2_lookup_l _ _ _ _ _
              (allocPoints_madeFrom name t extraLabels (numeric.Refs col)
                 (heapOf w)) Hi)
    as (pt & Hpt & _ & _ & l & m & Hl & Hfresh & Hm & Hcontent).
  destruct (Hcontent Hextra) as (base & -> & Hbase).
  exists pt, l. repeat (split; [done|]).
  rewrite Hm, Hbase by (by rewrite Hnil). rewrite Hnil. simpl.
  by rewrite delete_empty, (right_id_L ∅ (∪)).
Qed.

(** ** The write path in closed form *)

Lemma foldl_append_labels (kvs : list (string * string)) :
  ∀ labels : list promremote.Label,
    foldl (λ labels kv,
             labels ++ [ {| promremote.Name := kv.1; promremote.Value := kv.2 |} ])
          labels kvs
    = labels ++ (toLabel <$> kvs).
Proof.
  induction kvs as [|kv kvs IH]; intros labels; simpl.
  - by rewrite app_nil_r.
  - rewrite IH. by rewrite <- app_assoc.
Qed.

Lemma promremoteLabelsFromPoint_spec (pt : Point) (w : world) :
  promremoteLabelsFromPoint pt w = (Done (wireLabels (heapOf w) pt), w).
Proof.
  unfold promremoteLabelsFromPoint, mbind, M_bind, maprange, mret, M_ret.
  by rewrite foldl_append_labels.
Qed.

Lemma rangePoints_spec (points : list Point) :
  ∀ (series : list promremote.TimeSeries) (w : world),
    rangePoints points series w =
      (Done (series ++ (wireSeries (heapOf w) <$> points)), w).
Proof.
  induction points as [|pt rest IH]; intros series w; simpl.
  - by rewrite app_nil_r.
  - unfold mbind, M_bind. rewrite promremoteLabelsFromPoint_spec, IH.
    by rewrite <- app_assoc.
Qed.

(** What [Write] does once extraction has given [points]. *)
Lemma Write_after_extraction (pw : PrometheusWriter) (ctx : Ctx)
    (name : string) (t : Time) (frames : Frames) (extraLabels : data.Labels)
    (points : list Point) (w w1 : world) :
  PointsFromFrames name t frames extraLabels w = (Done (Ok points), w1) →
  Write pw ctx name t frames extraLabels w =
    (Done match checkWriteError
                  (WriteTimeSeries (client pw) ctx
                     (wireSeries (heapOf w1) <$> points)) with
          | Some err => Some (wrapError "failed to write time series: " err)
          | None => None
          end,
     mkWorld (heapOf w1)
             (traceOf w1 ++
                [ DebugLogged "Writing metric" ["name"; name];
                  WriteTimeSeriesCalled (wireSeries (heapOf w1) <$> points) ])).
Proof.
  intros Hpoints. unfold Write, mbind, M_bind. rewrite Hpoints.
  rewrite rangePoints_spec. simpl. rewrite <- app_assoc. simpl.
  by destruct (checkWriteError _).
Qed.

(** In the entries of a map, listed as labels, a key names one label when
    the map has it and none otherwise. *)
Lemma count_key_map_to_list (k : string) (m : gmap string string) :
  length (filter (λ l, promremote.Name l = k) (toLabel <$> map_to_list m))
  = match m !! k with Some _ => 1 | None => 0 end.
Proof.
  induction m as [|i x m Hi Hfirst IH] using map_first_key_ind.
  - by rewrite map_to_list_empty.
  - rewrite map_to_list_insert_first_key by done. rewrite fmap_cons.
    rewrite lookup_insert. destruct (decide (i = k)) as [->|Hne].
    + rewrite filter_cons_True by done. simpl. rewrite IH. by rewrite Hi.
    + rewrite filter_cons_False by done. by rewrite IH.
Qed.

Lemma countName_wireLabels (h : gmap positive (gmap string string)) (pt : Point) :
  countName (wireLabels h pt)
  = match entries h (Labels pt) !! "__name__" with Some _ => 2 | None => 1 end.
Proof.
  unfold countName, wireLabels. rewrite filter_cons_True by done. simpl.
  rewrite count_key_map_to_list. by destruct (_ !! _).
Qed.

(** ** [Write] *)

(** C8: when extraction fails, [Write] returns the extraction error and the
    world is as before the call: nothing was logged, no time series was
    built into a request and no remote-write call was made. *)
Theorem Write_extraction_failure (pw : PrometheusWriter) (ctx : Ctx)
    (name : string) (t : Time) (frames : Frames) (extraLabels : data.Labels)
    (w w1 : world) (err : error) :
  PointsFromFrames name t frames extraLabels w = (Done (Err err), w1) →
  Write pw ctx name t frames extraLabels w = (Done (Some err), w) ∧
  ∀ series,
    WriteTimeSeriesCalled series ∈
      traceOf (Write pw ctx name t frames extraLabels w).2 →
    WriteTimeSeriesCalled series ∈ traceOf w.
Proof.
  intros Hfail.
  destruct (PointsFromFrames_failure _ _ _ _ _ _ _ Hfail) as [-> _]; [done|].
  assert (Write pw ctx name t frames extraLabels w = (Done (Some err), w)) as Hw.
  { unfold Write, mbind, M_bind. by rewrite Hfail. }
  split; [done|]. by rewrite Hw.
Qed.

(** C1, as the code has it: whatever the remote-write call of [Write]
    returns as its error: a status of exactly 400 whose message contains
    one of the two duplicate-timestamp signatures makes [Write] return nil;
    every other failure (a 400 with another message, any other status,
    another 4xx among them, whatever the message) comes back wrapped, its
    text prefixed with "failed to write time series: ". *)
Theorem Write_classifies_write_error (pw : PrometheusWriter) (ctx : Ctx)
    (name : string) (t : Time) (frames : Frames) (extraLabels : data.Labels)
    (points : list Point) (w w1 : world) (we : WriteError) :
  PointsFromFrames name t frames extraLabels w = (Done (Ok points), w1) →
  WriteTimeSeries (client pw) ctx (wireSeries (heapOf w1) <$> points) = Some we →
  let duplicate :=
    StatusCode we = 400%Z ∧
    (Strings.occurs_in "err-mimir-sample-duplicate-timestamp"
                       (WriteErrorMessage we) ∨
     Strings.occurs_in "duplicate sample for timestamp"
                       (WriteErrorMessage we)) in
  (duplicate →
   (Write pw ctx name t frames extraLabels w).1 = Done None) ∧
  (¬ duplicate →
   ∃ e, (Write pw ctx name t frames extraLabels w).1 = Done (Some e) ∧
        e = wrapError "failed to write time series: " (asError we) ∧
        Unwrap e = Some (asError we) ∧
        Error e = "failed to write time series: " +:+ WriteErrorMessage we).
Proof.
  intros Hpoints Hcall duplicate.
  rewrite (Write_after_extraction _ _ _ _ _ _ _ _ _ Hpoints), Hcall.
  cbn [fst].
  pose proof (matchesAny_signatures (WriteErrorMessage we)) as Hsig.
  unfold checkWriteError. split.
  - intros [Hcode Hocc]. rewrite decide_True by done.
    apply Hsig in Hocc. by rewrite Hocc.
  - intros Hnot. eexists. split; [|done].
    destruct (decide (StatusCode we = 400%Z)) as [Hcode|Hcode]; [|done].
    destruct (matchesAny _ _) eqn:Hm; [|done].
    destruct Hnot. split; [done|]. by apply Hsig.
Qed.

(** C7, as the code has it: the label list of every time series [Write]
    sends starts with [__name__] = the point's name, followed by the
    point's labels as its map lists them; it has exactly one [__name__]
    label when [extraLabels] has no [__name__] key, and two otherwise. *)
Theorem Write_wire_labels (pw : PrometheusWriter) (ctx : Ctx)
    (name : string) (t : Time) (frames : Frames) (extraLabels : data.Labels)
    (cr : CollectionReader) (col : numeric.Collection) (w : world) :
  CollectionReaderFromFrames frames = Ok cr →
  GetCollection cr false = Ok col →
  allocated (heapOf w) extraLabels →
  ∃ (points : list Point) (series : list promremote.TimeSeries)
    (o : outcome (option error)) (w' : world),
    Write pw ctx name t frames extraLabels w = (o, w') ∧
    PointsFromFrames name t frames extraLabels w =
      (Done (Ok points), mkWorld (heapOf w') (traceOf w)) ∧
    traceOf w' =
      traceOf w ++ [ DebugLogged "Writing metric" ["name"; name];
                     WriteTimeSeriesCalled series ] ∧
    Forall2
      (λ pt ts,
         promremote.Labels ts =
           {| promremote.Name := "__name__"; promremote.Value := Name pt |}
             :: (toLabel <$> map_to_list (entries (heapOf w') (Labels pt))) ∧
         Name pt = name ∧
         countName (promremote.Labels ts) =
           match entries (heapOf w) extraLabels !! "__name__" with
           | Some _ => 2
           | None => 1
           end)
      points series.
Proof.
  intros Hcr Hcol Hextra.
  pose proof (PointsFromFrames_collection name t frames extraLabels cr col w
                Hcr Hcol) as Hclosed.
  eexists _, _, _, _.
  split; [by eapply Write_after_extraction|]. simpl.
  split; [done|]. split; [done|].
  apply Forall2_fmap_r, Forall_Forall2_diag, Forall_forall.
  intros pt Hin. apply list_elem_of_lookup in Hin as [i Hi].
  destruct (Forall2_lookup_r _ _ _ _ _
              (allocPoints_madeFrom name t extraLabels (numeric.Refs col)
                 (heapOf w)) Hi)
    as (ref & _ & Hmade).
  destruct (madeFrom_labels _ _ _ _ _ _ _ Hextra Hmade) as [_ Hname].
  split; [done|]. split; [apply Hmade|].
  simpl. rewrite countName_wireLabels. by rewrite Hname.
Qed.

(** ** Settings and construction *)

(** [NewPrometheusWriter] once the settings have passed validation. *)
Lemma NewPrometheusWriter_validated (settings : setting.RecordingRuleSettings)
    (provider : httpClientProvider) (l : Logger) (w : world) :
  validateSettings settings = None →
  NewPrometheusWriter settings provider l w =
    match GetTransport provider (transportOptions settings) with
    | Err err =>
        (Done (Err err),
         mkWorld (heapOf w)
                 (traceOf w ++ [GetTransportCalled (transportOptions settings)]))
    | Ok rt =>
        (Done match NewClient (clientConfig settings rt) with
              | Err err => Err err
              | Ok c => Ok {| client := c; logger := l |}
              end,
         mkWorld (heapOf w)
                 (traceOf w ++
                    [ GetTransportCalled (transportOptions settings);
                      NewClientCalled (setting.URL settings)
                                      (setting.Timeout settings) ]))
    end.
Proof.
  intros Hvalid. unfold NewPrometheusWriter. rewrite Hvalid.
  unfold mbind, M_bind, emit. simpl.
  fold (transportOptions settings).
  destruct (GetTransport provider (transportOptions settings)) as [rt|err];
    [|done].
  simpl. fold (clientConfig settings rt). rewrite <- app_assoc. simpl.
  by destruct (NewClient (clientConfig settings rt)).
Qed.

(** A failed validation stops construction before anything is asked for. *)
Lemma NewPrometheusWriter_invalid (settings : setting.RecordingRuleSettings)
    (provider : httpClientProvider) (l : Logger) (w : world) (err : error) :
  validateSettings settings = Some err →
  NewPrometheusWriter settings provider l w = (Done (Err err), w).
Proof. intros Hinvalid. unfold NewPrometheusWriter. by rewrite Hinvalid. Qed.

Lemma validateSettings_config_error (settings : setting.RecordingRuleSettings)
    (err : error) :
  validateSettings settings = Some err → isConfigError err.
Proof.
  unfold validateSettings, isConfigError.
  destruct (_ && _); [intros [= <-]; by left|].
  destruct (url_Parse _) as [inner|]; [intros [= <-]; right; left; by exists inner|].
  destruct (bool_decide _); [intros [= <-]; by right; right | done].
Qed.

(** C5, as the code has it: a user name without a password makes
    construction fail with the basic-auth configuration error, nothing
    having been asked of the provider; with an empty user name the options
    passed to the provider carry no basic auth, whatever the password; and
    with both empty construction succeeds, on a transport without basic
    auth, when the URL parses, the timeout is positive and the provider and
    the client constructor succeed. *)
Theorem NewPrometheusWriter_basic_auth (settings : setting.RecordingRuleSettings)
    (provider : httpClientProvider) (l : Logger) (w : world) :
  (setting.BasicAuthUsername settings ≠ "" →
   setting.BasicAuthPassword settings = "" →
   ∃ err, isConfigError err ∧
          err = errorString "basic auth password is required if username is set" ∧
          NewPrometheusWriter settings provider l w = (Done (Err err), w)) ∧
  (setting.BasicAuthUsername settings = "" →
   createAuthOpts (setting.BasicAuthUsername settings)
                  (setting.BasicAuthPassword settings) = None ∧
   ∃ r new,
     NewPrometheusWriter settings provider l w =
       (Done r, mkWorld (heapOf w) (traceOf w ++ new)) ∧
     ∀ opts, GetTransportCalled opts ∈ new → httpclient.BasicAuth opts = None) ∧
  (setting.BasicAuthUsername settings = "" →
   setting.BasicAuthPassword settings = "" →
   url_Parse (setting.URL settings) = None →
   (0 < setting.Timeout settings)%Z →
   ∀ rt c,
     GetTransport provider (transportOptions settings) = Ok rt →
     NewClient (clientConfig settings rt) = Ok c →
     httpclient.BasicAuth (transportOptions settings) = None ∧
     NewPrometheusWriter settings provider l w =
       (Done (Ok {| client := c; logger := l |}),
        mkWorld (heapOf w)
                (traceOf w ++
                   [ GetTransportCalled (transportOptions settings);
                     NewClientCalled (setting.URL settings)
                                     (setting.Timeout settings) ]))).
Proof.
  split; [|split].
  - intros Huser Hpass. eexists. split; [|split; [reflexivity|]].
    + by left.
    + apply NewPrometheusWriter_invalid. unfold validateSettings.
      by rewrite (bool_decide_eq_true_2 _ Huser), (bool_decide_eq_true_2 _ Hpass).
  - intros Huser.
    assert (createAuthOpts (setting.BasicAuthUsername settings)
              (setting.BasicAuthPassword settings) = None) as Hnone.
    { unfold createAuthOpts. by rewrite bool_decide_eq_true_2. }
    split; [done|].
    destruct (validateSettings settings) as [err|] eqn:Hvalid.
    + exists (Err err), []. rewrite app_nil_r.
      split; [rewrite (NewPrometheusWriter_invalid _ _ _ _ _ Hvalid); by destruct w|].
      intros opts Hin. by apply elem_of_nil in Hin.
    + rewrite (NewPrometheusWriter_validated _ _ _ _ Hvalid).
      destruct (GetTransport provider (transportOptions settings)) as [rt|err];
        eexists _, _; (split; [reflexivity|]); intros opts Hin;
        set_unfold in Hin; destruct_or?; simplify_eq; done.
  - intros Huser Hpass Hurl Htimeout rt c Hrt Hc.
    assert (validateSettings settings = None) as Hvalid.
    { unfold validateSettings. rewrite Huser, Hurl. simpl.
      by rewrite bool_decide_eq_false_2 by lia. }
    split.
    + simpl. unfold createAuthOpts. by rewrite bool_decide_eq_true_2.
    + rewrite (NewPrometheusWriter_validated _ _ _ _ Hvalid). by rewrite Hrt, Hc.
Qed.

(** C6, as the code has it: a timeout that is not positive or a URL that
    does not parse makes construction fail with a configuration error and
    the world untouched (no transport asked for, no client built); with a
    positive timeout, a URL that parses and no user name left without a
    password, validation passes. *)
Theorem NewPrometheusWriter_validation (settings : setting.RecordingRuleSettings)
    (provider : httpClientProvider) (l : Logger) (w : world) :
  (((setting.Timeout settings ≤ 0)%Z ∨ url_Parse (setting.URL settings) ≠ None) →
   ∃ err, isConfigError err ∧
          validateSettings settings = Some err ∧
          NewPrometheusWriter settings provider l w = (Done (Err err), w)) ∧
  ((0 < setting.Timeout settings)%Z →
   url_Parse (setting.URL settings) = None →
   ¬ (setting.BasicAuthUsername settings ≠ "" ∧
      setting.BasicAuthPassword settings = "") →
   validateSettings settings = None).
Proof.
  split.
  - intros Hbad.
    assert (∃ err, validateSettings settings = Some err) as [err Herr].
    { unfold validateSettings. destruct (_ && _); [by eexists|].
      destruct (url_Parse _) as [inner|]; [by eexists|].
      destruct Hbad as [Htimeout | Hurl]; [|done].
      rewrite bool_decide_eq_true_2 by done. by eexists. }
    exists err. split; [by eapply validateSettings_config_error|].
    split; [done|]. by apply NewPrometheusWriter_invalid.
  - intros Htimeout Hurl Hauth. unfold validateSettings. rewrite Hurl.
    rewrite (bool_decide_eq_false_2 (_ ≤ _)%Z) by lia.
    destruct (bool_decide _ && bool_decide _) eqn:Hb; [|done].
    apply andb_true_iff in Hb as [Hu Hp].
    apply bool_decide_eq_true_1 in Hu, Hp. by destruct Hauth.
Qed.

(** * Further properties *)

(** ** More on [Write] *)

Lemma Write_after_failure (pw : PrometheusWriter) (ctx : Ctx)
    (name : string) (t : Time) (frames : Frames) (extraLabels : data.Labels)
    (w w1 : world) (err : error) :
  PointsFromFrames name t frames extraLabels w = (Done (Err err), w1) →
  Write pw ctx name t frames extraLabels w = (Done (Some err), w1).
Proof. intros Hfail. unfold Write, mbind, M_bind. by rewrite Hfail. Qed.

Lemma PointsFromFrames_reader_error (name : string) (t : Time)
    (frames : Frames) (extraLabels : data.Labels) (w : world) (err : error) :
  CollectionReaderFromFrames frames = Err err →
  PointsFromFrames name t frames extraLabels w = (Done (Err err), w).
Proof. intros Herr. unfold PointsFromFrames. by rewrite Herr. Qed.

Lemma PointsFromFrames_collection_error (name : string) (t : Time)
    (frames : Frames) (extraLabels : data.Labels) (cr : CollectionReader)
    (w : world) (err : error) :
  CollectionReaderFromFrames frames = Ok cr →
  GetCollection cr false = Err err →
  PointsFromFrames name t frames extraLabels w = (Done (Err err), w).
Proof. intros Hcr Herr. unfold PointsFromFrames. by rewrite Hcr, Herr. Qed.

(** X1: when the two readers succeed, [Write] logs once and then makes
    exactly one remote-write call, whatever that call returns; the call
    carries one time series per series of the collection; [Write] returns
    nil when the call returns no error, and in general exactly when
    [checkWriteError] lets the call's error pass. *)
Theorem Write_one_remote_call (pw : PrometheusWriter) (ctx : Ctx)
    (name : string) (t : Time) (frames : Frames) (extraLabels : data.Labels)
    (cr : CollectionReader) (col : numeric.Collection) (w : world) :
  CollectionReaderFromFrames frames = Ok cr →
  GetCollection cr false = Ok col →
  ∃ (series : list promremote.TimeSeries) (o : option error) (w' : world),
    Write pw ctx name t frames extraLabels w = (Done o, w') ∧
    traceOf w' =
      traceOf w ++ [ DebugLogged "Writing metric" ["name"; name];
                     WriteTimeSeriesCalled series ] ∧
    length series = length (numeric.Refs col) ∧
    (WriteTimeSeries (client pw) ctx series = None → o = None) ∧
    (o = None ↔
     checkWriteError (WriteTimeSeries (client pw) ctx series) = None).
Proof.
  intros Hcr Hcol.
  pose proof (PointsFromFrames_collection name t frames extraLabels cr col w
                Hcr Hcol) as Hclosed.
  eexists _, _, _.
  split; [by eapply Write_after_extraction|]. simpl.
  split; [done|]. split; [by rewrite length_fmap, allocPoints_length|].
  split.
  - by intros ->.
  - by destruct (checkWriteError _).
Qed.

(** What [resolveValue] gives, in terms of the series alone. *)
Lemma resolveValue_cases (ref : numeric.MetricRef) :
  (((numeric.NullableFloat64Value ref).1.2 = true ∨
    (numeric.NullableFloat64Value ref).1.1 = None) →
   resolveValue ref = nan) ∧
  (∀ x, (numeric.NullableFloat64Value ref).1.2 = false →
        (numeric.NullableFloat64Value ref).1.1 = Some x →
        resolveValue ref = x).
Proof.
  unfold resolveValue.
  destruct (numeric.NullableFloat64Value ref) as [[fp empty] err]. simpl.
  split.
  - intros [-> | ->]; [done|]. by destruct empty.
  - by intros x -> ->.
Qed.

(** X2: every time series [Write] sends carries the timestamp passed to
    [Write]; its value is NaN when the value of its series is empty or a
    nil pointer, and is the value pointed to otherwise; the series sent are
    in the order of the collection. *)
Theorem Write_datapoints (pw : PrometheusWriter) (ctx : Ctx)
    (name : string) (t : Time) (frames : Frames) (extraLabels : data.Labels)
    (cr : CollectionReader) (col : numeric.Collection) (w : world) :
  CollectionReaderFromFrames frames = Ok cr →
  GetCollection cr false = Ok col →
  ∃ (series : list promremote.TimeSeries) (o : option error) (w' : world),
    Write pw ctx name t frames extraLabels w = (Done o, w') ∧
    traceOf w' =
      traceOf w ++ [ DebugLogged "Writing metric" ["name"; name];
                     WriteTimeSeriesCalled series ] ∧
    Forall2
      (λ ref ts,
         promremote.Timestamp (promremote.Datapoint_ ts) = t ∧
         (((numeric.NullableFloat64Value ref).1.2 = true ∨
           (numeric.NullableFloat64Value ref).1.1 = None) →
          promremote.DatapointValue (promremote.Datapoint_ ts) = nan ∧
          is_nan (promremote.DatapointValue (promremote.Datapoint_ ts)) = true) ∧
         (∀ x, (numeric.NullableFloat64Value ref).1.2 = false →
               (numeric.NullableFloat64Value ref).1.1 = Some x →
               promremote.DatapointValue (promremote.Datapoint_ ts) = x))
      (numeric.Refs col) series.
Proof.
  intros Hcr Hcol.
  pose proof (PointsFromFrames_collection name t frames extraLabels cr col w
                Hcr Hcol) as Hclosed.
  eexists _, _, _.
  split; [by eapply Write_after_extraction|]. simpl.
  split; [done|]. apply Forall2_fmap_r.
  eapply Forall2_impl; [apply allocPoints_madeFrom|].
  intros ref pt (_ & Hmetric & _). simpl. rewrite Hmetric. simpl.
  destruct (resolveValue_cases ref) as [Hnan Hvalue].
  split; [done|]. split.
  - intros Hnone. by rewrite (Hnan Hnone).
  - intros x Hfull Hx. by apply Hvalue.
Qed.

(** X3: a collection without series is no special case: extraction gives
    no points and leaves the world alone, and [Write] still logs and makes
    its remote-write call, with an empty list of time series. *)
Theorem Write_empty_collection (pw : PrometheusWriter) (ctx : Ctx)
    (name : string) (t : Time) (frames : Frames) (extraLabels : data.Labels)
    (cr : CollectionReader) (col : numeric.Collection) (w : world) :
  CollectionReaderFromFrames frames = Ok cr →
  GetCollection cr false = Ok col →
  numeric.Refs col = [] →
  PointsFromFrames name t frames extraLabels w = (Done (Ok []), w) ∧
  Write pw ctx name t frames extraLabels w =
    (Done match checkWriteError (WriteTimeSeries (client pw) ctx []) with
          | Some err => Some (wrapError "failed to write time series: " err)
          | None => None
          end,
     mkWorld (heapOf w)
             (traceOf w ++ [ DebugLogged "Writing metric" ["name"; name];
                             WriteTimeSeriesCalled [] ])).
Proof.
  intros Hcr Hcol Hempty.
  assert (PointsFromFrames name t frames extraLabels w = (Done (Ok []), w))
    as Hpoints.
  { rewrite (PointsFromFrames_collection _ _ _ _ cr col) by done.
    rewrite Hempty. simpl. by destruct w. }
  split; [done|]. by rewrite (Write_after_extraction _ _ _ _ _ _ _ _ _ Hpoints).
Qed.

(** X4: whenever [Write] returns, no map that existed before the call has
    changed (the caller's label sets and [extraLabels] among them), and the
    trace has grown by either nothing or one log entry followed by one
    remote-write call: there is no second attempt. *)
Theorem Write_frame (pw : PrometheusWriter) (ctx : Ctx)
    (name : string) (t : Time) (frames : Frames) (extraLabels : data.Labels)
    (w w' : world) (o : option error) :
  Write pw ctx name t frames extraLabels w = (Done o, w') →
  ∃ new : list event,
    traceOf w' = traceOf w ++ new ∧
    (new = [] ∨
     ∃ series, new = [ DebugLogged "Writing metric" ["name"; name];
                       WriteTimeSeriesCalled series ]) ∧
    heapOf w ⊆ heapOf w' ∧
    (∀ l : data.Labels,
       allocated (heapOf w) l → entries (heapOf w') l = entries (heapOf w) l).
Proof.
  destruct (CollectionReaderFromFrames frames) as [cr|err] eqn:Hcr;
    [destruct (GetCollection cr false) as [col|err] eqn:Hcol|].
  - pose proof (PointsFromFrames_collection name t frames extraLabels cr col w
                  Hcr Hcol) as Hclosed.
    rewrite (Write_after_extraction _ _ _ _ _ _ _ _ _ Hclosed).
    intros [= _ <-]. simpl. eexists. split; [done|].
    split; [right; by eexists|].
    split; [apply allocPoints_subseteq|].
    intros l Hl. apply entries_allocated_subseteq; [done|].
    apply allocPoints_subseteq.
  - rewrite (Write_after_failure _ _ _ _ _ _ _ w err)
      by (by eapply PointsFromFrames_collection_error).
    intros [= _ <-]. exists []. rewrite app_nil_r.
    by repeat split; try left.
  - rewrite (Write_after_failure _ _ _ _ _ _ _ w err)
      by (by apply PointsFromFrames_reader_error).
    intros [= _ <-]. exists []. rewrite app_nil_r.
    by repeat split; try left.
Qed.

(** ** More on [PointsFromFrames] *)

(** X5: when [extraLabels] and the series's label set are nil or maps of
    the heap, the labels of the series's point are exactly the series's
    labels without [__name__], with [extraLabels] laid over them: a label
    of the series other than [__name__] that [extraLabels] does not name is
    kept as it is, and the point has no label from anywhere else. *)
Theorem PointsFromFrames_point_labels (name : string) (t : Time)
    (frames : Frames) (extraLabels : data.Labels) (cr : CollectionReader)
    (col : numeric.Collection) (w : world) (i : nat) (ref : numeric.MetricRef) :
  CollectionReaderFromFrames frames = Ok cr →
  GetCollection cr false = Ok col →
  numeric.Refs col !! i = Some ref →
  allocated (heapOf w) extraLabels →
  allocated (heapOf w) (numeric.GetLabels ref) →
  ∃ (points : list Point) (w' : world) (pt : Point),
    PointsFromFrames name t frames extraLabels w = (Done (Ok points), w') ∧
    points !! i = Some pt ∧
    entries (heapOf w') (Labels pt) =
      entries (heapOf w) extraLabels
        ∪ delete "__name__" (entries (heapOf w) (numeric.GetLabels ref)) ∧
    (∀ k, k ≠ "__name__" →
          entries (heapOf w) extraLabels !! k = None →
          entries (heapOf w') (Labels pt) !! k =
            entries (heapOf w) (numeric.GetLabels ref) !! k) ∧
    (∀ k v, entries (heapOf w') (Labels pt) !! k = Some v →
            entries (heapOf w) extraLabels !! k = Some v ∨
            entries (heapOf w) (numeric.GetLabels ref) !! k = Some v).
Proof.
  intros Hcr Hcol Hi Hextra Href. eexists _, _.
  destruct (Forall2_lookup_l _ _ _ _ _
              (allocPoints_madeFrom name t extraLabels (numeric.Refs col)
                 (heapOf w)) Hi)
    as (pt & Hpt & _ & _ & l & m & Hl & _ & Hm & Hcontent).
  destruct (Hcontent Hextra) as (base & -> & Hbase). rewrite (Hbase Href) in Hm.
  exists pt. split; [by eapply PointsFromFrames_collection|]. simpl.
  split; [done|].
  assert (entries (allocPoints name t extraLabels (numeric.Refs col) (heapOf w)).2
                  (Labels pt)
          = entries (heapOf w) extraLabels
              ∪ delete "__name__" (entries (heapOf w) (numeric.GetLabels ref)))
    as ->.
  { rewrite Hl. simpl. by rewrite Hm. }
  split; [done|]. split.
  - intros k Hk Hnone. rewrite lookup_union_r by done.
    by apply lookup_delete_ne.
  - intros k v Hkv. apply lookup_union_Some_raw in Hkv as [Hkv | [_ Hkv]].
    + by left.
    + right. apply lookup_delete_Some in Hkv. by destruct Hkv.
Qed.

(** X6: extraction fails exactly when one of the two readers fails: a
    failing reader makes it fail, with that reader's own error, not
    wrapped, and with the world as it was; and it fails with an error only
    when a reader failed with that error. *)
Theorem PointsFromFrames_fails_iff (name : string) (t : Time)
    (frames : Frames) (extraLabels : data.Labels) (w : world) (err : error) :
  ((PointsFromFrames name t frames extraLabels w).1 = Done (Err err) ↔
   (CollectionReaderFromFrames frames = Err err ∨
    ∃ cr, CollectionReaderFromFrames frames = Ok cr ∧
          GetCollection cr false = Err err)) ∧
  ((CollectionReaderFromFrames frames = Err err ∨
    ∃ cr, CollectionReaderFromFrames frames = Ok cr ∧
          GetCollection cr false = Err err) →
   PointsFromFrames name t frames extraLabels w = (Done (Err err), w)).
Proof.
  assert ((CollectionReaderFromFrames frames = Err err ∨
           ∃ cr, CollectionReaderFromFrames frames = Ok cr ∧
                 GetCollection cr false = Err err) →
          PointsFromFrames name t frames extraLabels w = (Done (Err err), w))
    as Hfails.
  { intros [Herr | (cr & Hcr & Herr)].
    - by apply PointsFromFrames_reader_error.
    - by eapply PointsFromFrames_collection_error. }
  split; [|done]. split.
  - intros Hfail.
    destruct (PointsFromFrames name t frames extraLabels w) as [o w'] eqn:Hrun.
    simpl in Hfail. subst o.
    destruct (PointsFromFrames_failure _ _ _ _ _ _ _ Hrun)
      as (_ & err' & [= <-] & Hwhy); done.
  - intros Hwhy. by rewrite (Hfails Hwhy).
Qed.

Lemma allocPoints_withoutValueError (name : string) (t : Time)
    (extraLabels : data.Labels) (refs : list numeric.MetricRef) :
  ∀ h, allocPoints name t extraLabels (withoutValueError <$> refs) h
       = allocPoints name t extraLabels refs h.
Proof.
  induction refs as [|ref rest IH]; intros h; [done|].
  rewrite fmap_cons. cbn [allocPoints].
  assert (pointLabels h extraLabels (withoutValueError ref)
          = pointLabels h extraLabels ref) as -> by done.
  assert (resolveValue (withoutValueError ref) = resolveValue ref) as ->.
  { unfold resolveValue, withoutValueError. simpl.
    by destruct (numeric.NullableFloat64Value ref) as [[fp empty] e]. }
  by rewrite IH.
Qed.

(** X7: the error a series reports when its value is read is ignored:
    extraction on a collection gives the same result, points and heap, as
    on the same collection with those errors dropped. *)
Theorem PointsFromFrames_ignores_value_error (name : string) (t : Time)
    (frames frames' : Frames) (extraLabels : data.Labels)
    (cr cr' : CollectionReader) (col : numeric.Collection) (w : world) :
  CollectionReaderFromFrames frames = Ok cr →
  GetCollection cr false = Ok col →
  CollectionReaderFromFrames frames' = Ok cr' →
  GetCollection cr' false
    = Ok {| numeric.Refs := withoutValueError <$> numeric.Refs col |} →
  PointsFromFrames name t frames extraLabels w
  = PointsFromFrames name t frames' extraLabels w ∧
  ∃ points w',
    PointsFromFrames name t frames extraLabels w = (Done (Ok points), w').
Proof.
  intros Hcr Hcol Hcr' Hcol'.
  rewrite (PointsFromFrames_collection _ _ _ _ _ _ _ Hcr Hcol).
  rewrite (PointsFromFrames_collection _ _ _ _ _ _ _ Hcr' Hcol'). simpl.
  rewrite allocPoints_withoutValueError. split; [done | by eexists _, _].
Qed.

(** X8: the labels of a point do not depend on the order in which the
    loop over [extraLabels] visits the entries: whatever the order, the
    map ends up as [extraLabels] laid over what it held. *)
Theorem assignAll_any_order (p : positive) (kvs : list (string * string))
    (extra m : gmap string string) (w : world) :
  heapOf w !! p = Some m →
  kvs ≡ₚ map_to_list extra →
  assignAll (Some p) kvs w =
    (Done tt, mkWorld (<[p := extra ∪ m]> (heapOf w)) (traceOf w)).
Proof.
  intros Hm Hperm. rewrite (assignAll_spec _ _ _ _ Hm).
  by rewrite (foldl_insert_any_order _ extra).
Qed.

(** ** More on the wire labels *)

Lemma labelPair_toLabel (kvs : list (string * string)) :
  labelPair <$> (toLabel <$> kvs) = kvs.
Proof.
  induction kvs as [|[k v] kvs IH]; [done|].
  rewrite !fmap_cons, IH. done.
Qed.

Lemma Name_toLabel (kvs : list (string * string)) :
  promremote.Name <$> (toLabel <$> kvs) = kvs.*1.
Proof.
  induction kvs as [|[k v] kvs IH]; [done|].
  rewrite !fmap_cons, IH. done.
Qed.

(** X9: [promremoteLabelsFromPoint] only reads: it leaves the world as it
    is; after the leading [__name__] label it lists every entry of the
    point's map once and nothing else, so the map can be read back from
    the list, the names in that part are pairwise distinct and the list is
    one longer than the map is big (a point with nil labels gives the
    [__name__] label alone). *)
Theorem promremoteLabelsFromPoint_lists_the_map (pt : Point) (w : world) :
  ∃ rest : list promremote.Label,
    promremoteLabelsFromPoint pt w =
      (Done ({| promremote.Name := "__name__"; promremote.Value := Name pt |}
               :: rest), w) ∧
    list_to_map (labelPair <$> rest) = entries (heapOf w) (Labels pt) ∧
    (∀ k v, promremote.mkLabel k v ∈ rest ↔
            entries (heapOf w) (Labels pt) !! k = Some v) ∧
    NoDup (promremote.Name <$> rest) ∧
    length rest = size (entries (heapOf w) (Labels pt)) ∧
    (Labels pt = None → rest = []).
Proof.
  exists (toLabel <$> map_to_list (entries (heapOf w) (Labels pt))).
  split; [apply promremoteLabelsFromPoint_spec|].
  split; [by rewrite labelPair_toLabel, list_to_map_to_list|].
  split.
  { intros k v. rewrite <- elem_of_map_to_list. split.
    - intros Hin. apply list_elem_of_fmap in Hin as ([k' v'] & [= -> ->] & Hin).
      done.
    - intros Hin. apply list_elem_of_fmap. by exists (k, v). }
  split; [rewrite Name_toLabel; apply NoDup_fst_map_to_list|].
  split; [by rewrite length_fmap, length_map_to_list|].
  intros ->. simpl. by rewrite map_to_list_empty.
Qed.

(** X10: when [extraLabels] has no [__name__] key, no time series [Write]
    sends has two labels of the same name. *)
Theorem Write_label_names_distinct (pw : PrometheusWriter) (ctx : Ctx)
    (name : string) (t : Time) (frames : Frames) (extraLabels : data.Labels)
    (cr : CollectionReader) (col : numeric.Collection) (w : world) :
  CollectionReaderFromFrames frames = Ok cr →
  GetCollection cr false = Ok col →
  allocated (heapOf w) extraLabels →
  entries (heapOf w) extraLabels !! "__name__" = None →
  ∃ (series : list promremote.TimeSeries) (o : option error) (w' : world),
    Write pw ctx name t frames extraLabels w = (Done o, w') ∧
    traceOf w' =
      traceOf w ++ [ DebugLogged "Writing metric" ["name"; name];
                     WriteTimeSeriesCalled series ] ∧
    Forall (λ ts, NoDup (promremote.Name <$> promremote.Labels ts)) series.
Proof.
  intros Hcr Hcol Hextra Hnoname.
  pose proof (PointsFromFrames_collection name t frames extraLabels cr col w
                Hcr Hcol) as Hclosed.
  eexists _, _, _.
  split; [by eapply Write_after_extraction|]. simpl.
  split; [done|]. apply Forall_fmap, Forall_forall.
  intros pt Hin. apply list_elem_of_lookup in Hin as [i Hi].
  destruct (Forall2_lookup_r _ _ _ _ _
              (allocPoints_madeFrom name t extraLabels (numeric.Refs col)
                 (heapOf w)) Hi)
    as (ref & _ & Hmade).
  destruct (madeFrom_labels _ _ _ _ _ _ _ Hextra Hmade) as [_ Hname].
  rewrite Hnoname in Hname.
  unfold compose. cbn [wireSeries promremote.Labels]. unfold wireLabels.
  rewrite fmap_cons, Name_toLabel. cbn [promremote.Name].
  apply NoDup_cons. split; [|apply NoDup_fst_map_to_list].
  intros Hin. apply list_elem_of_fmap in Hin as ([k v] & Hk & Hin).
  simpl in Hk. subst k. apply elem_of_map_to_list in Hin. congruence.
Qed.

(** ** More on [checkWriteError] *)

(** X11: [checkWriteError] returns nil exactly for no error and for a
    status 400 whose message contains one of the two signatures; an error
    it returns is the write error it was given, status and message
    unchanged. *)
Theorem checkWriteError_nil_iff (writeErr : option WriteError) :
  (checkWriteError writeErr = None ↔
   writeErr = None ∨
   ∃ we, writeErr = Some we ∧ StatusCode we = 400%Z ∧
         (Strings.occurs_in "err-mimir-sample-duplicate-timestamp"
                            (WriteErrorMessage we) ∨
          Strings.occurs_in "duplicate sample for timestamp"
                            (WriteErrorMessage we))) ∧
  (∀ e, checkWriteError writeErr = Some e →
        ∃ we, writeErr = Some we ∧
              e = writeError (StatusCode we) (WriteErrorMessage we)).
Proof.
  destruct writeErr as [we|]; unfold checkWriteError.
  - pose proof (matchesAny_signatures (WriteErrorMessage we)) as Hsig.
    split.
    + destruct (decide (StatusCode we = 400%Z)) as [Hcode|Hcode].
      * destruct (matchesAny _ _) eqn:Hm.
        -- split; [intros _; right | done].
           exists we. split; [done|]. split; [done|]. by apply Hsig.
        -- split; [done|]. intros [? | (we' & [= <-] & _ & Hocc)]; [done|].
           apply Hsig in Hocc. congruence.
      * split; [done|]. intros [? | (we' & [= <-] & ? & _)]; done.
    + intros e He. exists we. split; [done|].
      destruct (decide _); [destruct (matchesAny _ _)|]; by simplify_eq.
  - split; [split; [by left | done] | done].
Qed.

(** ** More on the settings and on construction *)

Lemma validateSettings_None_inv (settings : setting.RecordingRuleSettings) :
  validateSettings settings = None →
  ¬ (setting.BasicAuthUsername settings ≠ "" ∧
     setting.BasicAuthPassword settings = "") ∧
  url_Parse (setting.URL settings) = None ∧
  (0 < setting.Timeout settings)%Z.
Proof.
  unfold validateSettings.
  destruct (bool_decide _ && bool_decide _) eqn:Hauth; [done|].
  destruct (url_Parse _) as [inner|]; [done|].
  destruct (bool_decide (_ ≤ _)%Z) eqn:Htimeout; [done|]. intros _.
  apply bool_decide_eq_false in Htimeout.
  split; [|split; [done | lia]].
  intros [Huser Hpass].
  by rewrite (bool_decide_eq_true_2 _ Huser), (bool_decide_eq_true_2 _ Hpass)
    in Hauth.
Qed.

(** X12: validation passes exactly when no user name is left without a
    password, the URL parses and the timeout is strictly positive. *)
Theorem validateSettings_passes_iff (settings : setting.RecordingRuleSettings) :
  validateSettings settings = None ↔
  ¬ (setting.BasicAuthUsername settings ≠ "" ∧
     setting.BasicAuthPassword settings = "") ∧
  url_Parse (setting.URL settings) = None ∧
  (0 < setting.Timeout settings)%Z.
Proof.
  split; [apply validateSettings_None_inv|].
  intros (Hauth & Hurl & Htimeout). unfold validateSettings. rewrite Hurl.
  rewrite (bool_decide_eq_false_2 (_ ≤ _)%Z) by lia.
  destruct (bool_decide _ && bool_decide _) eqn:Hb; [|done].
  apply andb_true_iff in Hb as [Hu Hp].
  apply bool_decide_eq_true_1 in Hu, Hp. by destruct Hauth.
Qed.

(** X13: which error validation returns when several settings are wrong:
    the missing password comes first, whatever the URL and the timeout;
    then the URL, its parse error wrapped behind "invalid URL: ", whatever
    the timeout; the timeout last. *)
Theorem validateSettings_first_error (settings : setting.RecordingRuleSettings) :
  (setting.BasicAuthUsername settings ≠ "" →
   setting.BasicAuthPassword settings = "" →
   validateSettings settings =
     Some (errorString "basic auth password is required if username is set")) ∧
  (¬ (setting.BasicAuthUsername settings ≠ "" ∧
      setting.BasicAuthPassword settings = "") →
   ∀ inner, url_Parse (setting.URL settings) = Some inner →
     validateSettings settings = Some (wrapError "invalid URL: " inner) ∧
     Error (wrapError "invalid URL: " inner) = "invalid URL: " +:+ Error inner) ∧
  (¬ (setting.BasicAuthUsername settings ≠ "" ∧
      setting.BasicAuthPassword settings = "") →
   url_Parse (setting.URL settings) = None →
   (setting.Timeout settings ≤ 0)%Z →
   validateSettings settings =
     Some (errorString "timeout must be greater than 0")).
Proof.
  assert (¬ (setting.BasicAuthUsername settings ≠ "" ∧
             setting.BasicAuthPassword settings = "") →
          bool_decide (setting.BasicAuthUsername settings ≠ "")
          && bool_decide (setting.BasicAuthPassword settings = "") = false)
    as Hnoauth.
  { intros Hauth. apply not_true_is_false. intros Hb.
    apply andb_true_iff in Hb as [Hu Hp].
    apply bool_decide_eq_true_1 in Hu, Hp. by destruct Hauth. }
  unfold validateSettings. split; [|split].
  - intros Huser Hpass.
    by rewrite (bool_decide_eq_true_2 _ Huser), (bool_decide_eq_true_2 _ Hpass).
  - intros Hauth inner Hurl. by rewrite (Hnoauth Hauth), Hurl.
  - intros Hauth Hurl Htimeout. rewrite (Hnoauth Hauth), Hurl.
    by rewrite (bool_decide_eq_true_2 _ Htimeout).
Qed.

(** X14: a writer that was constructed tells what held: the settings were
    valid (timeout positive, URL parsed, no user name without password),
    the provider gave a transport for the options built from the settings,
    the client was built from the fixed user agent, the URL and the timeout
    of the settings and that transport, and the writer holds that client
    and the logger passed in; the provider and the client constructor were
    each asked once, in that order. *)
Theorem NewPrometheusWriter_constructed (settings : setting.RecordingRuleSettings)
    (provider : httpClientProvider) (l : Logger) (w w' : world)
    (pw : PrometheusWriter) :
  NewPrometheusWriter settings provider l w = (Done (Ok pw), w') →
  (0 < setting.Timeout settings)%Z ∧
  url_Parse (setting.URL settings) = None ∧
  ¬ (setting.BasicAuthUsername settings ≠ "" ∧
     setting.BasicAuthPassword settings = "") ∧
  (∃ rt,
     GetTransport provider (transportOptions settings) = Ok rt ∧
     NewClient {| UserAgent := "grafana-recording-rule";
                  WriteURL := setting.URL settings;
                  HTTPClientTimeout := setting.Timeout settings;
                  HTTPClient := rt |} = Ok (client pw)) ∧
  logger pw = l ∧
  w' = mkWorld (heapOf w)
               (traceOf w ++
                  [ GetTransportCalled (transportOptions settings);
                    NewClientCalled (setting.URL settings)
                                    (setting.Timeout settings) ]).
Proof.
  intros Hrun.
  destruct (validateSettings settings) as [err|] eqn:Hvalid.
  { by rewrite (NewPrometheusWriter_invalid _ _ _ _ _ Hvalid) in Hrun. }
  destruct (validateSettings_None_inv _ Hvalid) as (Hauth & Hurl & Htimeout).
  rewrite (NewPrometheusWriter_validated _ _ _ _ Hvalid) in Hrun.
  destruct (GetTransport provider (transportOptions settings)) as [rt|err]
    eqn:Hrt; [|done].
  destruct (NewClient (clientConfig settings rt)) as [c|err] eqn:Hc; [|done].
  injection Hrun as <- <-.
  split; [done|]. split; [done|]. split; [done|].
  split; [by exists rt|]. done.
Qed.

(** X15: with valid settings, an error of the provider or of the client
    constructor is what construction returns, not wrapped; when the
    provider fails the client constructor is never asked. *)
Theorem NewPrometheusWriter_passes_on_errors
    (settings : setting.RecordingRuleSettings)
    (provider : httpClientProvider) (l : Logger) (w : world) (err : error) :
  validateSettings settings = None →
  (GetTransport provider (transportOptions settings) = Err err →
   NewPrometheusWriter settings provider l w =
     (Done (Err err),
      mkWorld (heapOf w)
              (traceOf w ++ [GetTransportCalled (transportOptions settings)]))) ∧
  (∀ rt,
     GetTransport provider (transportOptions settings) = Ok rt →
     NewClient (clientConfig settings rt) = Err err →
     NewPrometheusWriter settings provider l w =
       (Done (Err err),
        mkWorld (heapOf w)
                (traceOf w ++
                   [ GetTransportCalled (transportOptions settings);
                     NewClientCalled (setting.URL settings)
                                     (setting.Timeout settings) ]))).
Proof.
  intros Hvalid. rewrite (NewPrometheusWriter_validated _ _ _ _ Hvalid).
  split.
  - by intros ->.
  - intros rt -> Hc. by rewrite Hc.
Qed.

(** X16: with a user name set, whatever construction asks of the provider
    carries basic auth with exactly the user name and the password of the
    settings, and that password is not empty (without a password nothing is
    asked at all). *)
Theorem NewPrometheusWriter_credentials (settings : setting.RecordingRuleSettings)
    (provider : httpClientProvider) (l : Logger) (w : world) :
  setting.BasicAuthUsername settings ≠ "" →
  ∃ (r : result PrometheusWriter) (new : list event),
    NewPrometheusWriter settings provider l w =
      (Done r, mkWorld (heapOf w) (traceOf w ++ new)) ∧
    ∀ opts, GetTransportCalled opts ∈ new →
      httpclient.BasicAuth opts =
        Some {| httpclient.User := setting.BasicAuthUsername settings;
                httpclient.Password := setting.BasicAuthPassword settings |} ∧
      setting.BasicAuthPassword settings ≠ "".
Proof.
  intros Huser.
  destruct (validateSettings settings) as [err|] eqn:Hvalid.
  - exists (Err err), []. rewrite app_nil_r.
    split; [rewrite (NewPrometheusWriter_invalid _ _ _ _ _ Hvalid); by destruct w|].
    intros opts Hin. by apply elem_of_nil in Hin.
  - destruct (validateSettings_None_inv _ Hvalid) as (Hauth & _ & _).
    assert (httpclient.BasicAuth (transportOptions settings) =
              Some {| httpclient.User := setting.BasicAuthUsername settings;
                      httpclient.Password := setting.BasicAuthPassword settings |})
      as Hopts.
    { simpl. unfold createAuthOpts. by rewrite bool_decide_eq_false_2. }
    rewrite (NewPrometheusWriter_validated _ _ _ _ Hvalid).
    destruct (GetTransport provider (transportOptions settings)) as [rt|err];
      eexists _, _; (split; [reflexivity|]); intros opts Hin;
      set_unfold in Hin; destruct_or?; simplify_eq;
      (split; [done|]); intros Hpass; by destruct Hauth.
Qed.

(** *** The header set *)

(** The values a header has after the loop: those it had, then the values
    of the custom headers whose canonical key it is, in the order visited. *)
Lemma HeaderAdd_foldl (kvs : list (string * string)) :
  ∀ (h : gmap string (list string)) (key : string),
    default [] (foldl (λ h kv, HeaderAdd h kv.1 kv.2) h kvs !! key)
    = default [] (h !! key)
        ++ (filter (λ kv, CanonicalHeaderKey kv.1 = key) kvs).*2.
Proof.
  induction kvs as [|[k v] kvs IH]; intros h key; simpl.
  - by rewrite app_nil_r.
  - rewrite IH. unfold HeaderAdd. simpl.
    destruct (decide (CanonicalHeaderKey k = key)) as [<-|Hne].
    + rewrite lookup_insert_eq, filter_cons_True by done. simpl.
      by rewrite <- app_assoc.
    + rewrite lookup_insert_ne, filter_cons_False by done. done.
Qed.

Lemma filter_unique_key (key : string) (k v : string)
    (kvs : list (string * string)) :
  NoDup kvs.*1 →
  (k, v) ∈ kvs →
  (∀ kv, kv ∈ kvs → CanonicalHeaderKey kv.1 = key → kv.1 = k) →
  CanonicalHeaderKey k = key →
  filter (λ kv, CanonicalHeaderKey kv.1 = key) kvs = [(k, v)].
Proof.
  intros Hnd Hin Hinj Hkey.
  induction kvs as [|[k' v'] kvs IH]; [by apply elem_of_nil in Hin|].
  simpl in Hnd. apply NoDup_cons in Hnd as [Hk' Hnd].
  assert (k ∉ kvs.*1 → filter (λ kv, CanonicalHeaderKey kv.1 = key) kvs = [])
    as Hnone.
  { intros Hk. apply elem_of_nil_inv. intros [k2 v2] Hin2.
    apply list_elem_of_filter in Hin2 as [Hcanon Hin2]. apply Hk.
    assert (k2 = k) as <- by (apply (Hinj (k2, v2)); [by right | done]).
    apply list_elem_of_fmap. by exists (k2, v2). }
  destruct (decide (k' = k)) as [->|Hne].
  - rewrite filter_cons_True by done. rewrite Hnone by done.
    apply elem_of_cons in Hin as [[= ->] | Hin]; [done|].
    destruct Hk'. apply list_elem_of_fmap. by exists (k, v).
  - rewrite filter_cons_False.
    + apply elem_of_cons in Hin as [[= -> ->] | Hin]; [done|].
      apply IH; [done | done |]. intros kv Hkv. apply Hinj. by right.
    + simpl. intros Hcanon. apply Hne. apply (Hinj (k', v')); [by left | done].
Qed.

(** X17: the header set handed to the provider holds the custom headers
    and nothing else: the value of every custom header is among the values
    of its canonical key, and every value of every key is the value of a
    custom header with that canonical key. *)
Theorem NewPrometheusWriter_headers (settings : setting.RecordingRuleSettings)
    (provider : httpClientProvider) (l : Logger) (w : world) :
  validateSettings settings = None →
  ∃ (r : result PrometheusWriter) (opts : httpclient.Options)
    (rest : list event),
    NewPrometheusWriter settings provider l w =
      (Done r, mkWorld (heapOf w)
                       (traceOf w ++ GetTransportCalled opts :: rest)) ∧
    (∀ k v, setting.CustomHeaders settings !! k = Some v →
       ∃ vs, httpclient.Header opts !! CanonicalHeaderKey k = Some vs ∧ v ∈ vs) ∧
    (∀ key vs v, httpclient.Header opts !! key = Some vs → v ∈ vs →
       ∃ k, setting.CustomHeaders settings !! k = Some v ∧
            CanonicalHeaderKey k = key).
Proof.
  intros Hvalid.
  assert (∃ r rest,
            NewPrometheusWriter settings provider l w =
              (Done r, mkWorld (heapOf w)
                 (traceOf w ++ GetTransportCalled (transportOptions settings)
                             :: rest))) as (r & rest & Hrun).
  { rewrite (NewPrometheusWriter_validated _ _ _ _ Hvalid).
    destruct (GetTransport provider (transportOptions settings)); by eexists _, _. }
  exists r, (transportOptions settings), rest. split; [done|].
  pose proof (λ key, HeaderAdd_foldl
                (map_to_list (setting.CustomHeaders settings)) ∅ key) as Hfold.
  simpl. split.
  - intros k v Hkv. specialize (Hfold (CanonicalHeaderKey k)).
    rewrite lookup_empty in Hfold. simpl in Hfold.
    assert (v ∈ (filter (λ kv, CanonicalHeaderKey kv.1 = CanonicalHeaderKey k)
                   (map_to_list (setting.CustomHeaders settings))).*2) as Hin.
    { apply list_elem_of_fmap. exists (k, v). split; [done|].
      apply list_elem_of_filter. split; [done|]. by apply elem_of_map_to_list. }
    rewrite <- Hfold in Hin.
    destruct (foldl _ _ _ !! CanonicalHeaderKey k) as [vs|].
    + by exists vs.
    + by apply elem_of_nil in Hin.
  - intros key vs v Hvs Hin. specialize (Hfold key).
    rewrite Hvs, lookup_empty in Hfold. simpl in Hfold. rewrite Hfold in Hin.
    apply list_elem_of_fmap in Hin as ([k v'] & -> & Hin).
    apply list_elem_of_filter in Hin as [Hcanon Hin].
    apply elem_of_map_to_list in Hin. by exists k.
Qed.

(** X18: when no two custom headers have the same canonical key, each
    canonical key holds the one value of its custom header. *)
Theorem NewPrometheusWriter_headers_single (settings : setting.RecordingRuleSettings)
    (provider : httpClientProvider) (l : Logger) (w : world) :
  validateSettings settings = None →
  (∀ k1 k2, is_Some (setting.CustomHeaders settings !! k1) →
            is_Some (setting.CustomHeaders settings !! k2) →
            CanonicalHeaderKey k1 = CanonicalHeaderKey k2 → k1 = k2) →
  ∃ (r : result PrometheusWriter) (opts : httpclient.Options)
    (rest : list event),
    NewPrometheusWriter settings provider l w =
      (Done r, mkWorld (heapOf w)
                       (traceOf w ++ GetTransportCalled opts :: rest)) ∧
    ∀ k v, setting.CustomHeaders settings !! k = Some v →
           httpclient.Header opts !! CanonicalHeaderKey k = Some [v].
Proof.
  intros Hvalid Hinj.
  assert (∃ r rest,
            NewPrometheusWriter settings provider l w =
              (Done r, mkWorld (heapOf w)
                 (traceOf w ++ GetTransportCalled (transportOptions settings)
                             :: rest))) as (r & rest & Hrun).
  { rewrite (NewPrometheusWriter_validated _ _ _ _ Hvalid).
    destruct (GetTransport provider (transportOptions settings)); by eexists _, _. }
  exists r, (transportOptions settings), rest. split; [done|].
  intros k v Hkv. simpl.
  pose proof (HeaderAdd_foldl (map_to_list (setting.CustomHeaders settings))
                ∅ (CanonicalHeaderKey k)) as Hfold.
  rewrite lookup_empty in Hfold. simpl in Hfold.
  rewrite (filter_unique_key _ k v) in Hfold.
  - destruct (foldl _ _ _ !! CanonicalHeaderKey k) as [vs|]; simpl in Hfold;
      by subst.
  - apply NoDup_fst_map_to_list.
  - by apply elem_of_map_to_list.
  - intros [k' v'] Hin Hcanon. simpl in Hcanon |- *.
    apply elem_of_map_to_list in Hin.
    apply Hinj; [by eexists | by eexists | done].
  - done.
Qed.

(** X19: whenever construction returns, the heap is as it was; nothing
    was asked exactly when validation failed; the provider was asked at
    most once, and the client constructor only after the provider, once; a
    writer is returned only after both were asked. *)
Theorem NewPrometheusWriter_calls (settings : setting.RecordingRuleSettings)
    (provider : httpClientProvider) (l : Logger) (w w' : world)
    (r : result PrometheusWriter) :
  NewPrometheusWriter settings provider l w = (Done r, w') →
  ∃ new : list event,
    w' = mkWorld (heapOf w) (traceOf w ++ new) ∧
    (new = [] ∨
     new = [ GetTransportCalled (transportOptions settings) ] ∨
     new = [ GetTransportCalled (transportOptions settings);
             NewClientCalled (setting.URL settings) (setting.Timeout settings) ]) ∧
    (new = [] ↔ validateSettings settings ≠ None) ∧
    (∀ pw, r = Ok pw →
       new = [ GetTransportCalled (transportOptions settings);
               NewClientCalled (setting.URL settings)
                               (setting.Timeout settings) ]).
Proof.
  destruct (validateSettings settings) as [err|] eqn:Hvalid.
  - rewrite (NewPrometheusWriter_invalid _ _ _ _ _ Hvalid).
    intros [= <- <-]. exists []. rewrite app_nil_r.
    split; [by destruct w|]. split; [by left|]. split; [done|]. done.
  - rewrite (NewPrometheusWriter_validated _ _ _ _ Hvalid).
    destruct (GetTransport provider (transportOptions settings)) as [rt|err].
    + intros [= <- <-]. eexists. split; [reflexivity|].
      split; [by right; right|]. split; [done|]. done.
    + intros [= <- <-]. eexists. split; [reflexivity|].
      split; [by right; left|]. split; [done|]. done.
Qed.

End Writer.

(** * A concrete setting

    Stand-ins for the outside world, on which the statements above are put
    to work: frames that say what the readers make of them, a provider and
    a client constructor that always succeed, a URL parser that rejects a
    leading colon (as [url.Parse] does, "missing protocol scheme"). *)

Module Sample.

Inductive Frames : Type :=
| GoodFrames (col : numeric.Collection)
| UnreadableFrames (err : error)
| UnreadableCollection (err : error).

Definition CollectionReader : Type := result numeric.Collection.

Definition CollectionReaderFromFrames (frames : Frames)
  : result CollectionReader :=
  match frames with
  | GoodFrames col => Ok (Ok col)
  | UnreadableFrames err => Err err
  | UnreadableCollection err => Ok (Err err)
  end.

Definition GetCollection (cr : CollectionReader) (_ : bool)
  : result numeric.Collection := cr.

Definition url_Parse (rawURL : string) : option error :=
  if Strings.HasPrefix rawURL ":"
  then Some (errorString "missing protocol scheme")
  else None.

Definition CanonicalHeaderKey (k : string) : string := k.

(** A client whose every remote-write call returns [writeErr]. *)
Definition clientReturning (writeErr : option WriteError) : Client unit :=
  mkClient unit (λ _ _, writeErr).

Definition NewClient (cfg : Config unit) : result (Client unit) :=
  Ok (clientReturning None).

Definition provider : httpClientProvider unit :=
  mkProvider unit (λ _, Ok tt).

Definition writerReturning (writeErr : option WriteError)
  : PrometheusWriter unit unit :=
  mkPrometheusWriter unit unit (clientReturning writeErr) tt.

(** [PointsFromFrames], [Write] and [NewPrometheusWriter] in this setting;
    [copyOfNilIsNil] says what [Labels.Copy] makes of the nil map. *)
Definition points (copyOfNilIsNil : bool) :=
  PointsFromFrames Frames CollectionReader CollectionReaderFromFrames
                   GetCollection copyOfNilIsNil.

Definition write (copyOfNilIsNil : bool) :=
  Write unit unit Frames CollectionReader CollectionReaderFromFrames
        GetCollection copyOfNilIsNil.

Definition newWriter :=
  NewPrometheusWriter unit unit unit url_Parse CanonicalHeaderKey NewClient.

(** Two series and a third without labels and without a value; map 1 and
    map 2 are the label sets of the first two, map 3 is [extraLabels]. *)
Definition heap0 : gmap positive (gmap string string) :=
  {[ 1%positive := {[ "host" := "a"; "__name__" := "up" ]};
     2%positive := {[ "host" := "b"; "env" := "dev" ]};
     3%positive := {[ "env" := "prod" ]} ]}.

Definition world0 : world := mkWorld heap0 [].

Definition col0 : numeric.Collection :=
  {| numeric.Refs :=
       [ {| numeric.GetLabels := Some 1%positive;
            numeric.NullableFloat64Value := (Some 1.5%float, false, None) |};
         {| numeric.GetLabels := Some 2%positive;
            numeric.NullableFloat64Value := (None, false, None) |};
         {| numeric.GetLabels := None;
            numeric.NullableFloat64Value := (Some 2%float, true, None) |} ] |}.

Definition extra0 : data.Labels := Some 3%positive.

(** A caller whose [extraLabels] (map 2) names the metric itself. *)
Definition heap1 : gmap positive (gmap string string) :=
  {[ 1%positive := {[ "host" := "a" ]};
     2%positive := {[ "__name__" := "other" ]} ]}.

Definition world1 : world := mkWorld heap1 [].

Definition col1 : numeric.Collection :=
  {| numeric.Refs :=
       [ {| numeric.GetLabels := Some 1%positive;
            numeric.NullableFloat64Value := (Some 1.5%float, false, None) |} ] |}.

Definition extra1 : data.Labels := Some 2%positive.

Definition settings (user password : string) (timeout : Z)
  : setting.RecordingRuleSettings :=
  {| setting.URL := "http://localhost:9090/api/v1/write";
     setting.BasicAuthUsername := user;
     setting.BasicAuthPassword := password;
     setting.CustomHeaders := {[ "X-Scope-OrgID" := "1" ]};
     setting.Timeout := timeout |}.

Definition duplicate400 : WriteError :=
  mkWriteError 400
    "expected HTTP 200 status code: actual=400, err=failed pushing to ingester: user=1: the sample has been rejected because another sample with the same timestamp, but a different value, has already been ingested (err-mimir-sample-duplicate-timestamp)".

Definition duplicate500 : WriteError :=
  mkWriteError 500 "internal: err-mimir-sample-duplicate-timestamp".

End Sample.

(** * The statements at work on the concrete setting *)

Example checkWriteError_nil : checkWriteError None = None.
Proof. reflexivity. Qed.

Example checkWriteError_duplicate_400 :
  checkWriteError (Some Sample.duplicate400) = None.
Proof. vm_compute. reflexivity. Qed.

Example checkWriteError_duplicate_500 :
  checkWriteError (Some Sample.duplicate500) = Some (asError Sample.duplicate500).
Proof. vm_compute. reflexivity. Qed.

Example checkWriteError_other_400 :
  checkWriteError (Some (mkWriteError 400 "out of order sample"))
  = Some (writeError 400 "out of order sample").
Proof. vm_compute. reflexivity. Qed.

Example checkWriteError_duplicate_409 :
  checkWriteError (Some (mkWriteError 409 "duplicate sample for timestamp"))
  = Some (writeError 409 "duplicate sample for timestamp").
Proof. vm_compute. reflexivity. Qed.

Example resolveValue_NaN_is_nan : is_nan (resolveValue (numeric.mkMetricRef None (None, false, None))) = true.
Proof. reflexivity. Qed.

(** The three series of [Sample.col0] give three points. *)
Lemma PointsFromFrames_one_point_per_series_witness :
  ∃ (points : list Point) (w' : world),
    Sample.points false "cpu_usage" 1700000000%Z (Sample.GoodFrames Sample.col0)
                  Sample.extra0 Sample.world0 = (Done (Ok points), w') ∧
    length points = 3.
Proof.
  destruct (PointsFromFrames_one_point_per_series
              Sample.Frames Sample.CollectionReader
              Sample.CollectionReaderFromFrames Sample.GetCollection false
              "cpu_usage" 1700000000%Z (Sample.GoodFrames Sample.col0)
              Sample.extra0 (Ok Sample.col0) Sample.col0 Sample.world0
              eq_refl eq_refl)
    as (points & w' & Hrun & Hlen & _).
  exists points, w'. split; [exact Hrun | exact Hlen].
Defined.

(** Their values: 1.5 passed on, NaN for the null one and for the empty
    one. *)
Lemma PointsFromFrames_value_witness :
  ∃ (points : list Point) (w' : world),
    Sample.points true "cpu_usage" 1700000000%Z (Sample.GoodFrames Sample.col0)
                  Sample.extra0 Sample.world0 = (Done (Ok points), w') ∧
    ∃ p1 p2 p3, points = [p1; p2; p3] ∧
      V (Metric_ p1) = 1.5%float ∧ V (Metric_ p2) = nan ∧ V (Metric_ p3) = nan.
Proof.
  destruct (PointsFromFrames_value
              Sample.Frames Sample.CollectionReader
              Sample.CollectionReaderFromFrames Sample.GetCollection true
              "cpu_usage" 1700000000%Z (Sample.GoodFrames Sample.col0)
              Sample.extra0 (Ok Sample.col0) Sample.col0 Sample.world0
              eq_refl eq_refl)
    as (points & w' & Hrun & Hvalues).
  exists points, w'. split; [exact Hrun|].
  apply Forall2_cons_inv_l in Hvalues as (p1 & rest1 & [_ H1] & Hvalues & ->).
  apply Forall2_cons_inv_l in Hvalues as (p2 & rest2 & [H2 _] & Hvalues & ->).
  apply Forall2_cons_inv_l in Hvalues as (p3 & rest3 & [H3 _] & Hvalues & ->).
  apply Forall2_nil_inv_l in Hvalues as ->.
  exists p1, p2, p3. split; [reflexivity|].
  split; [exact (H1 _ eq_refl eq_refl)|].
  split; [exact (proj1 (H2 (or_intror eq_refl))) | exact (proj1 (H3 (or_introl eq_refl)))].
Defined.

(** With [extraLabels] = [{env: prod}], every point has [env] = [prod] (the
    second series had [env] = [dev]) and no [__name__] (the first series
    had one). *)
Lemma PointsFromFrames_labels_witness :
  ∃ (points : list Point) (w' : world),
    Sample.points false "cpu_usage" 1700000000%Z (Sample.GoodFrames Sample.col0)
                  Sample.extra0 Sample.world0 = (Done (Ok points), w') ∧
    ∀ pt, pt ∈ points →
      entries (heapOf w') (Labels pt) !! "env" = Some "prod" ∧
      entries (heapOf w') (Labels pt) !! "__name__" = None.
Proof.
  destruct (PointsFromFrames_labels
              Sample.Frames Sample.CollectionReader
              Sample.CollectionReaderFromFrames Sample.GetCollection false
              "cpu_usage" 1700000000%Z (Sample.GoodFrames Sample.col0)
              Sample.extra0 (Ok Sample.col0) Sample.col0 Sample.world0
              eq_refl eq_refl (ex_intro _ _ eq_refl))
    as (points & w' & Hrun & Hlabels).
  exists points, w'. split; [exact Hrun|].
  intros pt Hin. destruct (Hlabels pt Hin) as (Hsub & _ & Hname).
  split; [|exact (Hname eq_refl)].
  exact (lookup_weaken _ _ "env" "prod" eq_refl Hsub).
Defined.

(** C2 fails as stated: when [extraLabels] itself has the key [__name__],
    the point includes every entry of [extraLabels] and so does not exclude
    [__name__] (here [extraLabels] is an allocated map, and extraction
    succeeds with one point). *)
Lemma PointsFromFrames_labels_counterexample :
  allocated (heapOf Sample.world1) Sample.extra1 ∧
  ∃ (pt : Point) (w' : world),
    Sample.points false "cpu_usage" 1700000000%Z (Sample.GoodFrames Sample.col1)
                  Sample.extra1 Sample.world1 = (Done (Ok [pt]), w') ∧
    entries (heapOf w') (Labels pt) !! "__name__" = Some "other" ∧
    ¬ (∀ p, p ∈ [pt] →
         entries (heapOf w') (Labels p) !! "__name__" = None ∧
         entries (heapOf Sample.world1) Sample.extra1
           ⊆ entries (heapOf w') (Labels p)).
Proof.
  split; [by eexists|]. eexists _, _.
  split; [vm_compute; reflexivity|].
  split; [vm_compute; reflexivity|].
  intros Hall. destruct (Hall _ (list_elem_of_here _ _)) as [Hname _].
  vm_compute in Hname. discriminate Hname.
Qed.

(** The third series of [Sample.col0] has no label set; its point gets a
    new map with the entries of [extraLabels], also when [Labels.Copy]
    hands back nil for nil. *)
Lemma PointsFromFrames_nil_labels_witness :
  ∃ (points : list Point) (w' : world) (pt : Point) (l : positive),
    Sample.points true "cpu_usage" 1700000000%Z (Sample.GoodFrames Sample.col0)
                  Sample.extra0 Sample.world0 = (Done (Ok points), w') ∧
    points !! 2 = Some pt ∧ Labels pt = Some l ∧
    heapOf Sample.world0 !! l = None ∧
    heapOf w' !! l = Some {[ "env" := "prod" ]}.
Proof.
  destruct (PointsFromFrames_nil_labels
              Sample.Frames Sample.CollectionReader
              Sample.CollectionReaderFromFrames Sample.GetCollection true
              "cpu_usage" 1700000000%Z (Sample.GoodFrames Sample.col0)
              Sample.extra0 (Ok Sample.col0) Sample.col0 Sample.world0
              eq_refl eq_refl (ex_intro _ _ eq_refl))
    as (points & w' & Hrun & Hnil).
  destruct (Hnil 2 _ eq_refl eq_refl) as (pt & l & Hpt & Hl & Hfresh & Hmap).
  exists points, w', pt, l. repeat (split; [assumption|]). exact Hmap.
Defined.

(** Frames the reader cannot read: [Write] returns the reader's error and
    the world is unchanged. *)
Lemma Write_extraction_failure_witness :
  Sample.write false (Sample.writerReturning None) tt "cpu_usage" 1700000000%Z
               (Sample.UnreadableFrames (errorString "no frames"))
               Sample.extra0 Sample.world0
  = (Done (Some (errorString "no frames")), Sample.world0).
Proof.
  exact (proj1 (Write_extraction_failure
                  unit unit Sample.Frames Sample.CollectionReader
                  Sample.CollectionReaderFromFrames Sample.GetCollection false
                  (Sample.writerReturning None) tt "cpu_usage" 1700000000%Z
                  (Sample.UnreadableFrames (errorString "no frames"))
                  Sample.extra0 Sample.world0 Sample.world0
                  (errorString "no frames") eq_refl)).
Defined.

(** A 400 of Mimir for a duplicate timestamp: [Write] returns nil. *)
Lemma Write_classifies_write_error_witness :
  (Sample.write false (Sample.writerReturning (Some Sample.duplicate400)) tt
                "cpu_usage" 1700000000%Z (Sample.GoodFrames Sample.col0)
                Sample.extra0 Sample.world0).1 = Done None.
Proof.
  refine (proj1 (Write_classifies_write_error
                   unit unit Sample.Frames Sample.CollectionReader
                   Sample.CollectionReaderFromFrames Sample.GetCollection false
                   (Sample.writerReturning (Some Sample.duplicate400)) tt
                   "cpu_usage" 1700000000%Z (Sample.GoodFrames Sample.col0)
                   Sample.extra0 _ Sample.world0 _ Sample.duplicate400 _ _) _).
  - vm_compute. reflexivity.
  - reflexivity.
  - split; [reflexivity|]. left. apply Contains_spec. vm_compute. reflexivity.
Defined.

(** The series sent for [Sample.col0] each carry one [__name__] label, the
    first of their list. *)
Lemma Write_wire_labels_witness :
  ∃ (series : list promremote.TimeSeries) (o : outcome (option error))
    (w' : world),
    Sample.write false (Sample.writerReturning None) tt "cpu_usage"
                 1700000000%Z (Sample.GoodFrames Sample.col0)
                 Sample.extra0 Sample.world0 = (o, w') ∧
    traceOf w' = [ DebugLogged "Writing metric" ["name"; "cpu_usage"];
                   WriteTimeSeriesCalled series ] ∧
    Forall (λ ts, head (promremote.Labels ts) =
                    Some (promremote.mkLabel "__name__" "cpu_usage") ∧
                  countName (promremote.Labels ts) = 1)
           series.
Proof.
  destruct (Write_wire_labels
              unit unit Sample.Frames Sample.CollectionReader
              Sample.CollectionReaderFromFrames Sample.GetCollection false
              (Sample.writerReturning None) tt "cpu_usage" 1700000000%Z
              (Sample.GoodFrames Sample.col0) Sample.extra0
              (Ok Sample.col0) Sample.col0 Sample.world0
              eq_refl eq_refl (ex_intro _ _ eq_refl))
    as (points & series & o & w' & Hrun & _ & Htrace & Hlabels).
  exists series, o, w'. split; [exact Hrun|]. split; [exact Htrace|].
  apply Forall_forall. intros ts Hin.
  apply list_elem_of_lookup in Hin as [i Hi].
  destruct (Forall2_lookup_r _ _ _ _ _ Hlabels Hi)
    as (pt & _ & Heq & Hname & Hcount).
  split; [rewrite Heq, Hname; reflexivity | exact Hcount].
Defined.

(** C7 fails as stated: with [__name__] among [extraLabels], the series
    [Write] sends has two [__name__] labels. *)
Lemma Write_wire_labels_counterexample :
  allocated (heapOf Sample.world1) Sample.extra1 ∧
  ∃ (o : outcome (option error)) (w' : world),
    Sample.write false (Sample.writerReturning None) tt "cpu_usage"
                 1700000000%Z (Sample.GoodFrames Sample.col1)
                 Sample.extra1 Sample.world1 = (o, w') ∧
    traceOf w' =
      [ DebugLogged "Writing metric" ["name"; "cpu_usage"];
        WriteTimeSeriesCalled
          [ {| promremote.Labels :=
                 [ promremote.mkLabel "__name__" "cpu_usage";
                   promremote.mkLabel "__name__" "other";
                   promremote.mkLabel "host" "a" ];
               promremote.Datapoint_ :=
                 promremote.mkDatapoint 1700000000%Z 1.5%float |} ] ] ∧
    countName [ promremote.mkLabel "__name__" "cpu_usage";
                promremote.mkLabel "__name__" "other";
                promremote.mkLabel "host" "a" ] = 2.
Proof.
  split; [by eexists|]. eexists _, _.
  split; [reflexivity|]. split; vm_compute; reflexivity.
Qed.

(** A user name without a password is refused; no user name and no
    password, with a positive timeout, gives a writer on a transport
    without basic auth. *)
Lemma NewPrometheusWriter_basic_auth_witness :
  (∃ err, isConfigError err ∧
          Sample.newWriter (Sample.settings "admin" "" 10000000000)
                           Sample.provider tt Sample.world0
          = (Done (Err err), Sample.world0)) ∧
  (∃ pw opts timeout,
     Sample.newWriter (Sample.settings "" "" 10000000000)
                      Sample.provider tt Sample.world0
     = (Done (Ok pw),
        mkWorld Sample.heap0
                [ GetTransportCalled opts;
                  NewClientCalled "http://localhost:9090/api/v1/write" timeout ]) ∧
     httpclient.BasicAuth opts = None).
Proof.
  split.
  - destruct (proj1 (NewPrometheusWriter_basic_auth
                       unit unit unit Sample.url_Parse Sample.CanonicalHeaderKey
                       Sample.NewClient (Sample.settings "admin" "" 10000000000)
                       Sample.provider tt Sample.world0))
      as (err & Hconfig & _ & Hrun).
    + discriminate.
    + reflexivity.
    + exists err. split; [exact Hconfig | exact Hrun].
  - destruct (proj2 (proj2 (NewPrometheusWriter_basic_auth
                       unit unit unit Sample.url_Parse Sample.CanonicalHeaderKey
                       Sample.NewClient (Sample.settings "" "" 10000000000)
                       Sample.provider tt Sample.world0))
                eq_refl eq_refl eq_refl eq_refl tt (Sample.clientReturning None)
                eq_refl eq_refl)
      as [Hauth Hrun].
    eexists _, _, _. split; [exact Hrun | exact Hauth].
Defined.

(** C5 fails as stated: with no user name and no password construction
    still fails when the timeout is zero. *)
Lemma NewPrometheusWriter_basic_auth_counterexample :
  setting.BasicAuthUsername (Sample.settings "" "" 0) = "" ∧
  setting.BasicAuthPassword (Sample.settings "" "" 0) = "" ∧
  Sample.newWriter (Sample.settings "" "" 0) Sample.provider tt Sample.world0
  = (Done (Err (errorString "timeout must be greater than 0")), Sample.world0).
Proof. split; [reflexivity|]. split; [reflexivity|]. vm_compute. reflexivity. Qed.

(** A zero timeout is refused before anything is built; ten seconds with
    a URL that parses and no basic auth pass validation. *)
Lemma NewPrometheusWriter_validation_witness :
  (∃ err, isConfigError err ∧
          Sample.newWriter (Sample.settings "" "" 0)
                           Sample.provider tt Sample.world0
          = (Done (Err err), Sample.world0)) ∧
  validateSettings Sample.url_Parse (Sample.settings "" "" 10000000000) = None.
Proof.
  split.
  - destruct (proj1 (NewPrometheusWriter_validation
                       unit unit unit Sample.url_Parse Sample.CanonicalHeaderKey
                       Sample.NewClient (Sample.settings "" "" 0)
                       Sample.provider tt Sample.world0))
      as (err & Hconfig & _ & Hrun).
    + left. vm_compute. discriminate.
    + exists err. split; [exact Hconfig | exact Hrun].
  - refine (proj2 (NewPrometheusWriter_validation
                     unit unit unit Sample.url_Parse Sample.CanonicalHeaderKey
                     Sample.NewClient (Sample.settings "" "" 10000000000)
                     Sample.provider tt Sample.world0) _ _ _).
    + reflexivity.
    + reflexivity.
    + intros [Huser _]. apply Huser. reflexivity.
Defined.

(** C6 fails as stated: a positive timeout and a URL that parses do not
    make validation pass when a user name comes without a password. *)
Lemma NewPrometheusWriter_validation_counterexample :
  (0 < setting.Timeout (Sample.settings "admin" "" 10000000000))%Z ∧
  Sample.url_Parse (setting.URL (Sample.settings "admin" "" 10000000000)) = None ∧
  validateSettings Sample.url_Parse (Sample.settings "admin" "" 10000000000)
  = Some (errorString "basic auth password is required if username is set").
Proof. split; [reflexivity|]. split; reflexivity. Qed.


(** * Further properties on the concrete setting *)

(** X20: the guard after [Labels.Copy] makes extraction the same whether
    the copy of a nil label set is nil or a new empty map: points, heap
    and trace agree. *)
Theorem PointsFromFrames_nil_guard (Frames CollectionReader : Type)
    (CollectionReaderFromFrames : Frames → result CollectionReader)
    (GetCollection : CollectionReader → bool → result numeric.Collection)
    (name : string) (t : Time) (frames : Frames) (extraLabels : data.Labels)
    (w : world) :
  PointsFromFrames Frames CollectionReader CollectionReaderFromFrames
                   GetCollection true name t frames extraLabels w
  = PointsFromFrames Frames CollectionReader CollectionReaderFromFrames
                     GetCollection false name t frames extraLabels w.
Proof.
  destruct (CollectionReaderFromFrames frames) as [cr|err] eqn:Hcr;
    [destruct (GetCollection cr false) as [col|err] eqn:Hcol|].
  - by rewrite !(PointsFromFrames_collection _ _ _ _ _ _ _ _ _ cr col).
  - unfold PointsFromFrames. by rewrite Hcr, Hcol.
  - unfold PointsFromFrames. by rewrite Hcr.
Qed.

Module SampleMore.

(** A collection without series. *)
Definition colEmpty : numeric.Collection := {| numeric.Refs := [] |}.

(** One series whose value read reports an error. *)
Definition colValueError : numeric.Collection :=
  {| numeric.Refs :=
       [ {| numeric.GetLabels := Some 1%positive;
            numeric.NullableFloat64Value :=
              (None, false, Some (errorString "unsupported field type")) |} ] |}.

(** A provider that has no transport to give. *)
Definition failingProvider : httpClientProvider unit :=
  mkProvider unit (λ _, Err (errorString "no transport")).

Definition tenSeconds : Z := 10000000000.

Definition twoLabels : gmap string string :=
  {[ "env" := "prod"; "team" := "alerting" ]}.

End SampleMore.

Lemma Write_one_remote_call_witness :
  ∃ (series : list promremote.TimeSeries) (w' : world),
    Sample.write false (Sample.writerReturning None) tt "cpu_usage"
                 1700000000%Z (Sample.GoodFrames Sample.col0)
                 Sample.extra0 Sample.world0 = (Done None, w') ∧
    traceOf w' = [ DebugLogged "Writing metric" ["name"; "cpu_usage"];
                   WriteTimeSeriesCalled series ] ∧
    length series = 3.
Proof.
  destruct (Write_one_remote_call
              unit unit Sample.Frames Sample.CollectionReader
              Sample.CollectionReaderFromFrames Sample.GetCollection false
              (Sample.writerReturning None) tt "cpu_usage" 1700000000%Z
              (Sample.GoodFrames Sample.col0) Sample.extra0
              (Ok Sample.col0) Sample.col0 Sample.world0 eq_refl eq_refl)
    as (series & o & w' & Hrun & Htrace & Hlen & Hnil & _).
  exists series, w'. rewrite <- (Hnil eq_refl).
  split; [exact Hrun|]. split; [exact Htrace | exact Hlen].
Defined.

Lemma Write_datapoints_witness :
  ∃ (series : list promremote.TimeSeries) (o : option error) (w' : world),
    Sample.write false (Sample.writerReturning None) tt "cpu_usage"
                 1700000000%Z (Sample.GoodFrames Sample.col0)
                 Sample.extra0 Sample.world0 = (Done o, w') ∧
    ∃ ts1 ts2 ts3, series = [ts1; ts2; ts3] ∧
      promremote.Datapoint_ ts1 = promremote.mkDatapoint 1700000000%Z 1.5%float ∧
      promremote.Datapoint_ ts2 = promremote.mkDatapoint 1700000000%Z nan ∧
      promremote.Datapoint_ ts3 = promremote.mkDatapoint 1700000000%Z nan.
Proof.
  destruct (Write_datapoints
              unit unit Sample.Frames Sample.CollectionReader
              Sample.CollectionReaderFromFrames Sample.GetCollection false
              (Sample.writerReturning None) tt "cpu_usage" 1700000000%Z
              (Sample.GoodFrames Sample.col0) Sample.extra0
              (Ok Sample.col0) Sample.col0 Sample.world0 eq_refl eq_refl)
    as (series & o & w' & Hrun & _ & Hpoints).
  exists series, o, w'. split; [exact Hrun|].
  apply Forall2_cons_inv_l in Hpoints
    as (ts1 & rest1 & (Ht1 & _ & Hv1) & Hpoints & ->).
  apply Forall2_cons_inv_l in Hpoints
    as (ts2 & rest2 & (Ht2 & Hv2 & _) & Hpoints & ->).
  apply Forall2_cons_inv_l in Hpoints
    as (ts3 & rest3 & (Ht3 & Hv3 & _) & Hpoints & ->).
  apply Forall2_nil_inv_l in Hpoints as ->.
  exists ts1, ts2, ts3. split; [reflexivity|].
  pose proof (Hv1 _ eq_refl eq_refl) as Hx1.
  pose proof (proj1 (Hv2 (or_intror eq_refl))) as Hx2.
  pose proof (proj1 (Hv3 (or_introl eq_refl))) as Hx3.
  destruct ts1 as [labels1 [timestamp1 value1]].
  destruct ts2 as [labels2 [timestamp2 value2]].
  destruct ts3 as [labels3 [timestamp3 value3]].
  simpl in Ht1, Ht2, Ht3, Hx1, Hx2, Hx3. simpl.
  rewrite Ht1, Ht2, Ht3, Hx1, Hx2, Hx3.
  split; [reflexivity|]. split; reflexivity.
Defined.

Lemma Write_empty_collection_witness :
  Sample.write false (Sample.writerReturning None) tt "cpu_usage"
               1700000000%Z (Sample.GoodFrames SampleMore.colEmpty)
               Sample.extra0 Sample.world0
  = (Done None,
     mkWorld Sample.heap0
             [ DebugLogged "Writing metric" ["name"; "cpu_usage"];
               WriteTimeSeriesCalled [] ]).
Proof.
  exact (proj2 (Write_empty_collection
                  unit unit Sample.Frames Sample.CollectionReader
                  Sample.CollectionReaderFromFrames Sample.GetCollection false
                  (Sample.writerReturning None) tt "cpu_usage" 1700000000%Z
                  (Sample.GoodFrames SampleMore.colEmpty) Sample.extra0
                  (Ok SampleMore.colEmpty) SampleMore.colEmpty Sample.world0
                  eq_refl eq_refl eq_refl)).
Defined.

(** The second series of [Sample.col0] keeps its [host] and gets its [env]
    from [extraLabels]. *)
Lemma PointsFromFrames_point_labels_witness :
  ∃ (points : list Point) (w' : world) (pt : Point),
    Sample.points false "cpu_usage" 1700000000%Z (Sample.GoodFrames Sample.col0)
                  Sample.extra0 Sample.world0 = (Done (Ok points), w') ∧
    points !! 1 = Some pt ∧
    entries (heapOf w') (Labels pt) = {[ "env" := "prod"; "host" := "b" ]}.
Proof.
  destruct (PointsFromFrames_point_labels
              Sample.Frames Sample.CollectionReader
              Sample.CollectionReaderFromFrames Sample.GetCollection false
              "cpu_usage" 1700000000%Z (Sample.GoodFrames Sample.col0)
              Sample.extra0 (Ok Sample.col0) Sample.col0 Sample.world0 1 _
              eq_refl eq_refl eq_refl (ex_intro _ _ eq_refl)
              (ex_intro _ _ eq_refl))
    as (points & w' & pt & Hrun & Hpt & Hlabels & _).
  exists points, w', pt. split; [exact Hrun|]. split; [exact Hpt|].
  rewrite Hlabels. vm_compute. reflexivity.
Defined.

Lemma PointsFromFrames_ignores_value_error_witness :
  Sample.points false "cpu_usage" 1700000000%Z
                (Sample.GoodFrames SampleMore.colValueError)
                Sample.extra0 Sample.world0
  = Sample.points false "cpu_usage" 1700000000%Z
                  (Sample.GoodFrames
                     {| numeric.Refs :=
                          withoutValueError
                            <$> numeric.Refs SampleMore.colValueError |})
                  Sample.extra0 Sample.world0.
Proof.
  exact (proj1 (PointsFromFrames_ignores_value_error
                  Sample.Frames Sample.CollectionReader
                  Sample.CollectionReaderFromFrames Sample.GetCollection false
                  "cpu_usage" 1700000000%Z
                  (Sample.GoodFrames SampleMore.colValueError)
                  (Sample.GoodFrames
                     {| numeric.Refs :=
                          withoutValueError
                            <$> numeric.Refs SampleMore.colValueError |})
                  Sample.extra0 _ _ SampleMore.colValueError Sample.world0
                  eq_refl eq_refl eq_refl eq_refl)).
Defined.

(** Visiting two entries in the reverse order gives the same map. *)
Lemma assignAll_any_order_witness :
  assignAll (Some 1%positive) (reverse (map_to_list SampleMore.twoLabels))
            Sample.world0
  = (Done tt,
     mkWorld (<[1%positive :=
                  SampleMore.twoLabels ∪ {[ "host" := "a"; "__name__" := "up" ]}]>
                Sample.heap0) []).
Proof.
  apply (assignAll_any_order 1%positive
           (reverse (map_to_list SampleMore.twoLabels)) SampleMore.twoLabels
           {[ "host" := "a"; "__name__" := "up" ]} Sample.world0).
  - reflexivity.
  - apply reverse_Permutation.
Defined.

Lemma Write_label_names_distinct_witness :
  ∃ (series : list promremote.TimeSeries) (o : option error) (w' : world),
    Sample.write false (Sample.writerReturning None) tt "cpu_usage"
                 1700000000%Z (Sample.GoodFrames Sample.col0)
                 Sample.extra0 Sample.world0 = (Done o, w') ∧
    traceOf w' = [ DebugLogged "Writing metric" ["name"; "cpu_usage"];
                   WriteTimeSeriesCalled series ] ∧
    Forall (λ ts, NoDup (promremote.Name <$> promremote.Labels ts)) series.
Proof.
  exact (Write_label_names_distinct
           unit unit Sample.Frames Sample.CollectionReader
           Sample.CollectionReaderFromFrames Sample.GetCollection false
           (Sample.writerReturning None) tt "cpu_usage" 1700000000%Z
           (Sample.GoodFrames Sample.col0) Sample.extra0
           (Ok Sample.col0) Sample.col0 Sample.world0
           eq_refl eq_refl (ex_intro _ _ eq_refl) eq_refl).
Defined.

Lemma validateSettings_first_error_witness :
  validateSettings Sample.url_Parse
    {| setting.URL := ":9090";
       setting.BasicAuthUsername := "admin";
       setting.BasicAuthPassword := "";
       setting.CustomHeaders := ∅;
       setting.Timeout := 0 |}
  = Some (errorString "basic auth password is required if username is set") ∧
  validateSettings Sample.url_Parse
    {| setting.URL := ":9090";
       setting.BasicAuthUsername := "";
       setting.BasicAuthPassword := "";
       setting.CustomHeaders := ∅;
       setting.Timeout := 0 |}
  = Some (wrapError "invalid URL: " (errorString "missing protocol scheme")) ∧
  validateSettings Sample.url_Parse (Sample.settings "" "" 0)
  = Some (errorString "timeout must be greater than 0").
Proof.
  split; [|split].
  - refine (proj1 (validateSettings_first_error Sample.url_Parse _) _ _).
    + discriminate.
    + reflexivity.
  - refine (proj1 (proj1 (proj2 (validateSettings_first_error
                                   Sample.url_Parse _)) _ _ _)).
    + intros [Huser _]. apply Huser. reflexivity.
    + reflexivity.
  - refine (proj2 (proj2 (validateSettings_first_error Sample.url_Parse _))
              _ _ _).
    + intros [Huser _]. apply Huser. reflexivity.
    + reflexivity.
    + discriminate.
Defined.

Lemma NewPrometheusWriter_constructed_witness :
  (0 < SampleMore.tenSeconds)%Z ∧
  ∃ rt : unit,
    GetTransport unit Sample.provider
      (transportOptions Sample.CanonicalHeaderKey
         (Sample.settings "admin" "secret" SampleMore.tenSeconds)) = Ok rt ∧
    Sample.NewClient
      {| UserAgent := "grafana-recording-rule";
         WriteURL := "http://localhost:9090/api/v1/write";
         HTTPClientTimeout := SampleMore.tenSeconds;
         HTTPClient := rt |} = Ok (Sample.clientReturning None).
Proof.
  destruct (NewPrometheusWriter_constructed
              unit unit unit Sample.url_Parse Sample.CanonicalHeaderKey
              Sample.NewClient
              (Sample.settings "admin" "secret" SampleMore.tenSeconds)
              Sample.provider tt Sample.world0
              (mkWorld Sample.heap0
                 [ GetTransportCalled
                     (transportOptions Sample.CanonicalHeaderKey
                        (Sample.settings "admin" "secret" SampleMore.tenSeconds));
                   NewClientCalled "http://localhost:9090/api/v1/write"
                                   SampleMore.tenSeconds ])
              (mkPrometheusWriter unit unit (Sample.clientReturning None) tt)
              eq_refl)
    as (Htimeout & _ & _ & Hbuilt & _).
  split; [exact Htimeout | exact Hbuilt].
Defined.

Lemma NewPrometheusWriter_passes_on_errors_witness :
  Sample.newWriter (Sample.settings "" "" SampleMore.tenSeconds)
                   SampleMore.failingProvider tt Sample.world0
  = (Done (Err (errorString "no transport")),
     mkWorld Sample.heap0
             [ GetTransportCalled
                 (transportOptions Sample.CanonicalHeaderKey
                    (Sample.settings "" "" SampleMore.tenSeconds)) ]).
Proof.
  exact (proj1 (NewPrometheusWriter_passes_on_errors
                  unit unit unit Sample.url_Parse Sample.CanonicalHeaderKey
                  Sample.NewClient
                  (Sample.settings "" "" SampleMore.tenSeconds)
                  SampleMore.failingProvider tt Sample.world0
                  (errorString "no transport") eq_refl) eq_refl).
Defined.

Lemma NewPrometheusWriter_credentials_witness :
  ∃ (r : result (PrometheusWriter unit unit)) (new : list event),
    Sample.newWriter (Sample.settings "admin" "secret" SampleMore.tenSeconds)
                     Sample.provider tt Sample.world0
    = (Done r, mkWorld Sample.heap0 new) ∧
    ∀ opts, GetTransportCalled opts ∈ new →
      httpclient.BasicAuth opts =
        Some {| httpclient.User := "admin"; httpclient.Password := "secret" |}.
Proof.
  destruct (NewPrometheusWriter_credentials
              unit unit unit Sample.url_Parse Sample.CanonicalHeaderKey
              Sample.NewClient
              (Sample.settings "admin" "secret" SampleMore.tenSeconds)
              Sample.provider tt Sample.world0)
    as (r & new & Hrun & Hopts).
  - discriminate.
  - exists r, new. split; [exact Hrun|].
    intros opts Hin. exact (proj1 (Hopts opts Hin)).
Defined.

Lemma NewPrometheusWriter_headers_witness :
  ∃ (r : result (PrometheusWriter unit unit)) (opts : httpclient.Options)
    (rest : list event) (vs : list string),
    Sample.newWriter (Sample.settings "" "" SampleMore.tenSeconds)
                     Sample.provider tt Sample.world0
    = (Done r, mkWorld Sample.heap0 (GetTransportCalled opts :: rest)) ∧
    httpclient.Header opts !! "X-Scope-OrgID" = Some vs ∧ "1" ∈ vs.
Proof.
  destruct (NewPrometheusWriter_headers
              unit unit unit Sample.url_Parse Sample.CanonicalHeaderKey
              Sample.NewClient
              (Sample.settings "" "" SampleMore.tenSeconds)
              Sample.provider tt Sample.world0 eq_refl)
    as (r & opts & rest & Hrun & Hin & _).
  destruct (Hin "X-Scope-OrgID" "1" eq_refl) as (vs & Hvs & Hv).
  exists r, opts, rest, vs. split; [exact Hrun|]. split; [exact Hvs | exact Hv].
Defined.

Lemma NewPrometheusWriter_headers_single_witness :
  ∃ (r : result (PrometheusWriter unit unit)) (opts : httpclient.Options)
    (rest : list event),
    Sample.newWriter (Sample.settings "" "" SampleMore.tenSeconds)
                     Sample.provider tt Sample.world0
    = (Done r, mkWorld Sample.heap0 (GetTransportCalled opts :: rest)) ∧
    httpclient.Header opts !! "X-Scope-OrgID" = Some ["1"].
Proof.
  destruct (NewPrometheusWriter_headers_single
              unit unit unit Sample.url_Parse Sample.CanonicalHeaderKey
              Sample.NewClient
              (Sample.settings "" "" SampleMore.tenSeconds)
              Sample.provider tt Sample.world0 eq_refl)
    as (r & opts & rest & Hrun & Hone).
  - intros k1 k2 _ _ Hcanon. exact Hcanon.
  - exists r, opts, rest. split; [exact Hrun|].
    exact (Hone "X-Scope-OrgID" "1" eq_refl).
Defined.

(** A run of [Write] on [Sample.col0] whose remote call fails: the maps
    that existed are as they were and the trace has only grown. *)
Lemma Write_frame_witness :
  ∃ (o : option error) (w' : world),
    Sample.write false (Sample.writerReturning (Some Sample.duplicate500)) tt
                 "cpu_usage" 1700000000%Z (Sample.GoodFrames Sample.col0)
                 Sample.extra0 Sample.world0 = (Done o, w') ∧
    (∃ new, traceOf w' = traceOf Sample.world0 ++ new) ∧
    Sample.heap0 ⊆ heapOf w'.
Proof.
  pose proof (Write_after_extraction
                unit unit Sample.Frames Sample.CollectionReader
                Sample.CollectionReaderFromFrames Sample.GetCollection false
                (Sample.writerReturning (Some Sample.duplicate500)) tt
                "cpu_usage" 1700000000%Z (Sample.GoodFrames Sample.col0)
                Sample.extra0 _ Sample.world0 _
                (PointsFromFrames_collection
                   Sample.Frames Sample.CollectionReader
                   Sample.CollectionReaderFromFrames Sample.GetCollection false
                   "cpu_usage" 1700000000%Z (Sample.GoodFrames Sample.col0)
                   Sample.extra0 (Ok Sample.col0) Sample.col0 Sample.world0
                   eq_refl eq_refl)) as Hrun.
  destruct (Write_frame
              unit unit Sample.Frames Sample.CollectionReader
              Sample.CollectionReaderFromFrames Sample.GetCollection false
              (Sample.writerReturning (Some Sample.duplicate500)) tt
              "cpu_usage" 1700000000%Z (Sample.GoodFrames Sample.col0)
              Sample.extra0 Sample.world0 _ _ Hrun)
    as (new & Htrace & _ & Hsub & _).
  eexists _, _. split; [exact Hrun|].
  split; [exists new; exact Htrace | exact Hsub].
Defined.

(** Construction stopped by the provider: something was asked, and
    validation had passed. *)
Lemma NewPrometheusWriter_calls_witness :
  ∃ (r : result (PrometheusWriter unit unit)) (new : list event),
    Sample.newWriter (Sample.settings "" "" SampleMore.tenSeconds)
                     SampleMore.failingProvider tt Sample.world0
    = (Done r, mkWorld Sample.heap0 new) ∧
    new ≠ [] ∧
    validateSettings Sample.url_Parse
      (Sample.settings "" "" SampleMore.tenSeconds) = None.
Proof.
  pose proof (NewPrometheusWriter_validated
                unit unit unit Sample.url_Parse Sample.CanonicalHeaderKey
                Sample.NewClient (Sample.settings "" "" SampleMore.tenSeconds)
                SampleMore.failingProvider tt Sample.world0 eq_refl) as Hrun.
  cbn [GetTransport SampleMore.failingProvider] in Hrun.
  destruct (NewPrometheusWriter_calls
              unit unit unit Sample.url_Parse Sample.CanonicalHeaderKey
              Sample.NewClient (Sample.settings "" "" SampleMore.tenSeconds)
              SampleMore.failingProvider tt Sample.world0 _ _ Hrun)
    as (new & Hworld & _ & Hnone & _).
  exists (Err (errorString "no transport")), new.
  split; [rewrite Hworld in Hrun; exact Hrun|]. split; [|reflexivity].
  intros Hnew. apply (proj1 Hnone Hnew). reflexivity.
Defined.

(** C1 fails as stated for a 400-class status other than 400: a 409 whose
    message is a duplicate-timestamp signature is not tolerated, [Write]
    returns it wrapped. *)
Lemma Write_classifies_write_error_counterexample :
  (400 ≤ StatusCode (mkWriteError 409 "duplicate sample for timestamp") < 500)%Z ∧
  Strings.occurs_in "duplicate sample for timestamp"
    (WriteErrorMessage (mkWriteError 409 "duplicate sample for timestamp")) ∧
  (Sample.write false
     (Sample.writerReturning
        (Some (mkWriteError 409 "duplicate sample for timestamp")))
     tt "cpu_usage" 1700000000%Z (Sample.GoodFrames Sample.col0)
     Sample.extra0 Sample.world0).1
  = Done (Some (wrapError "failed to write time series: "
                  (writeError 409 "duplicate sample for timestamp"))).
Proof.
  split; [simpl; lia|]. split.
  - by exists "", "".
  - vm_compute. reflexivity.
Qed.

(** A collection the reader cannot make: extraction fails with the
    reader's error and the world is as it was. *)
Lemma PointsFromFrames_fails_iff_witness :
  Sample.points false "cpu_usage" 1700000000%Z
                (Sample.UnreadableCollection (errorString "no numeric frames"))
                Sample.extra0 Sample.world0
  = (Done (Err (errorString "no numeric frames")), Sample.world0).
Proof.
  refine (proj2 (PointsFromFrames_fails_iff
                   Sample.Frames Sample.CollectionReader
                   Sample.CollectionReaderFromFrames Sample.GetCollection false
                   "cpu_usage" 1700000000%Z
                   (Sample.UnreadableCollection (errorString "no numeric frames"))
                   Sample.extra0 Sample.world0
                   (errorString "no numeric frames")) _).
  right. eexists. split; reflexivity.
Defined.
